(** * sbs_sklearn: k-fold evaluation and polynomial feature expansion

    A shallow embedding of [lib/sbs_sklearn.py].  The two functions with
    logic of their own are embedded:

    - [train_n_test]: k-fold cross-validation of a model under a metric;
    - [build_polynomial_dataframe]: products of column combinations.

    Python integers are [Z]; exceptions are values of [exn]; the objects the
    caller hands in (feature table, target vector, model object) and the
    calls made on the collaborators live in an explicit run-time state that
    is threaded through the code.

    The libraries the module calls are embedded as far as it uses them:
    [KFold] of scikit-learn with its two argument checks and its fold
    layout, the generator's shuffle as an arbitrary function; the
    [DataFrame] operations of pandas over the arithmetic of the column
    type, with [int64] (products wrap around) and [float64] (IEEE 754,
    with NaN, which a product over a row skips) as instances;
    [itertools.combinations_with_replacement].  The target is a pandas
    object, a [Series] or a [DataFrame]: its [len] is its number of rows
    and its values are flattened before use.  The model's [fit] and
    [predict] and the metric are arbitrary functions that return. *)

From Stdlib Require Import List ZArith String Bool Lia Permutation Sorted.
From Stdlib Require Import Factorial.
From Stdlib Require Floats.
Import ListNotations.

Set Implicit Arguments.

(** ** Python values and exceptions *)

Module Py.

(** The values a caller can pass where the code inspects the run-time
    type.  [type(v) == int] holds for [PyInt] only: [bool] is a subclass
    of [int], but [type(True)] is [bool].  A float is carried as
    [mantissa * 2 ^ exponent]. *)
Inductive object : Type :=
| PyNone
| PyBool (b : bool)
| PyInt (z : Z)
| PyFloat (mantissa exponent : Z)
| PyStr (s : string).

(** [type(v) == int] *)
Definition type_is_int (v : object) : bool :=
  match v with
  | PyInt _ => true
  | _ => false
  end.

(** What went wrong inside the library when it raises [ValueError]. *)
Inductive value_error : Type :=
| NSplitsTooSmall (n_splits : Z)
| NSplitsExceedsSamples (n_splits : Z) (n_samples : nat)
| InconsistentLengths (n_X n_y : nat).

Inductive exn : Type :=
| AssertionError (msg : string)
| ValueError (why : value_error)
| ZeroDivisionError.

(** The exceptions by which an argument is refused: the function's own
    assertion and the library's argument checks. *)
Definition invalid_argument (e : exn) : bool :=
  match e with
  | AssertionError _ | ValueError _ => true
  | ZeroDivisionError => false
  end.

(** The result of running a piece of code: a value or a raised exception. *)
Inductive result (A : Type) : Type :=
| Ok (a : A)
| Raise (e : exn).
Arguments Raise {A} e.

(** Code that runs on a state [S] and returns a value or raises; the
    state reached is kept when it raises. *)
Definition prog (S A : Type) : Type := S -> S * result A.

Definition ret {S A : Type} (a : A) : prog S A := fun st => (st, Ok a).

Definition bind {S A B : Type} (c : prog S A) (k : A -> prog S B)
  : prog S B :=
  fun st =>
    match c st with
    | (st', Ok a) => k a st'
    | (st', Raise e) => (st', Raise e)
    end.

Definition raise {S A : Type} (e : exn) : prog S A :=
  fun st => (st, Raise e).

Definition lift {S A : Type} (r : result A) : prog S A := fun st => (st, r).

(** [for x in xs: acc = body(x, acc)] *)
Fixpoint for_each {S A B : Type} (xs : list A) (body : A -> B -> prog S B)
         (acc : B) : prog S B :=
  match xs with
  | [] => ret acc
  | x :: rest => bind (body x acc) (for_each rest body)
  end.

(** [range(lo, hi)] *)
Definition range (lo hi : Z) : list Z :=
  map (fun i => (lo + Z.of_nat i)%Z) (seq 0 (Z.to_nat (hi - lo))).

(** [a % b] on integers: the sign follows the divisor, and a zero divisor
    raises. *)
Definition mod_ (a b : Z) : result Z :=
  if (b =? 0)%Z then Raise ZeroDivisionError else Ok (a mod b)%Z.

(** [x or d] for an optional integer [x]: [None] and [0] are falsy. *)
Definition or_ (x : option Z) (d : Z) : Z :=
  match x with
  | Some z => if (z =? 0)%Z then d else z
  | None => d
  end.

(** [a[idx]] for an integer index array [idx]: the elements of [a] at the
    positions listed, in the order listed.  The index arrays of this
    program are drawn from [arange(len(a))], so every position exists. *)
Definition take {A : Type} (a : list A) (idx : list nat) : list A :=
  flat_map (fun i => match nth_error a i with
                     | Some x => [x]
                     | None => []
                     end) idx.

(** [a[start:stop]] *)
Definition slice {A : Type} (a : list A) (start stop : nat) : list A :=
  firstn (stop - start) (skipn start a).

Module Notations.
Notation "x <- c ;; k" := (bind c (fun x => k))
  (at level 61, c at next level, right associativity).
Notation "c ;; k" := (bind c (fun _ => k))
  (at level 61, right associativity).
End Notations.

End Py.

(** ** itertools *)

Module Itertools.

(** [combinations_with_replacement(pool, r)]: the [r]-length tuples of
    elements of [pool], positions non-decreasing, in lexicographic order
    of positions. *)
Fixpoint combinations_with_replacement {A : Type} (r : nat)
  : list A -> list (list A) :=
  match r with
  | O => fun _ => [[]]
  | S r' =>
      fix from (pool : list A) : list (list A) :=
        match pool with
        | [] => []
        | x :: rest =>
            map (cons x) (combinations_with_replacement r' pool) ++ from rest
        end
  end.

End Itertools.

(** ** pandas: the part of [Series] and [DataFrame] the code uses *)

Module Pandas.

(** The target argument as pandas holds it: a [Series] of values, or a
    [DataFrame] given by its rows. *)
Inductive NDFrame (A : Type) : Type :=
| Series (values : list A)
| Frame (rows : list (list A)).

(** [len(y)]: the number of rows. *)
Definition len {A : Type} (y : NDFrame A) : nat :=
  match y with
  | Series values => List.length values
  | Frame rows => List.length rows
  end.

(** [y.values.ravel()]: the values as one flat array, row after row. *)
Definition values_ravel {A : Type} (y : NDFrame A) : list A :=
  match y with
  | Series values => values
  | Frame rows => List.concat rows
  end.

(** The arithmetic of a column type: the product of two cells, the cell
    1, and the test for a missing value (NaN). *)
Class Dtype (cell : Type) : Type := {
  mul : cell -> cell -> cell;
  one : cell;
  isnan : cell -> bool
}.

(** [int64]: products wrap around into [-2^63, 2^63); no cell is NaN. *)
Definition wrap_int64 (z : Z) : Z :=
  ((z + 2 ^ 63) mod 2 ^ 64 - 2 ^ 63)%Z.

#[global] Instance int64 : Dtype Z := {|
  mul := fun a b => wrap_int64 (a * b);
  one := 1%Z;
  isnan := fun _ => false
|}.

(** [float64]: IEEE 754 binary64. *)
#[global] Instance float64 : Dtype PrimFloat.float := {|
  mul := PrimFloat.mul;
  one := PrimFloat.of_uint63 (Uint63.of_Z 1);
  isnan := PrimFloat.is_nan
|}.

Section DataFrame.

Context {cell : Type} {dtype : Dtype cell}.

(** A table of numeric columns: the number of rows and the named columns
    in their order.  In a well-formed table every column has [nrows]
    values. *)
Record DataFrame : Type := mkDataFrame {
  nrows : nat;
  cols : list (string * list cell)
}.

Definition well_formed (df : DataFrame) : Prop :=
  Forall (fun c => List.length (snd c) = nrows df) (cols df).

(** [df.columns] *)
Definition columns (df : DataFrame) : list string := map fst (cols df).

(** [df.copy()]: a new table with the same contents. *)
Definition copy (df : DataFrame) : DataFrame :=
  mkDataFrame (nrows df) (cols df).

(** [df[names]] for a list of labels: the columns with these labels, in
    the order of [names]. *)
Definition getitem (df : DataFrame) (names : list string) : DataFrame :=
  mkDataFrame (nrows df)
    (flat_map (fun nm => filter (fun c => String.eqb (fst c) nm) (cols df))
              names).

Fixpoint zip_with {A B C : Type} (f : A -> B -> C) (l : list A) (l' : list B)
  : list C :=
  match l, l' with
  | a :: t, b :: t' => f a b :: zip_with f t t'
  | _, _ => []
  end.

(** A missing cell counts as 1 in a product. *)
Definition nan_to_one (c : cell) : cell := if isnan c then one else c.

(** [df.prod(axis=1)] with its default [skipna=True]: the product of each
    row over the columns from left to right, missing cells counting as 1;
    the empty product is 1. *)
Definition prod_axis1 (df : DataFrame) : list cell :=
  match cols df with
  | [] => repeat one (nrows df)
  | c :: rest =>
      fold_left (fun acc c' => zip_with mul acc (map nan_to_one (snd c')))
                rest (map nan_to_one (snd c))
  end.

(** [df[name] = v] on the columns: every column labelled [name] gets the
    values [v] where it stands; when there is none, a new last column is
    appended. *)
Definition set_column (cs : list (string * list cell)) (name : string)
           (v : list cell) : list (string * list cell) :=
  if existsb (fun c => String.eqb (fst c) name) cs
  then map (fun c => if String.eqb (fst c) name then (fst c, v) else c) cs
  else cs ++ [(name, v)].

(** [df[name] = v] *)
Definition setitem (df : DataFrame) (name : string) (v : list cell)
  : DataFrame :=
  mkDataFrame (nrows df) (set_column (cols df) name v).

(** The values of the first column labelled [name], if any. *)
Definition column (df : DataFrame) (name : string) : option (list cell) :=
  option_map snd (find (fun c => String.eqb (fst c) name) (cols df)).

End DataFrame.

Arguments DataFrame cell : clear implicits.

End Pandas.

(** ** build_polynomial_dataframe *)

Section PolynomialExpander.

Context {cell : Type} {dtype : Pandas.Dtype cell}.

(** The body of the inner loop: one tuple of column labels gives one
    assignment into [poly_data]. *)
Definition add_term (data : Pandas.DataFrame cell)
           (poly_data : Pandas.DataFrame cell) (tpl : list string)
  : Pandas.DataFrame cell :=
  let name := String.concat "_x_"%string tpl in
  Pandas.setitem poly_data name (Pandas.prod_axis1 (Pandas.getitem data tpl)).

(** The body of the outer loop: all terms of order [o]. *)
Definition add_order (data : Pandas.DataFrame cell)
           (poly_data : Pandas.DataFrame cell) (o : Z)
  : Pandas.DataFrame cell :=
  fold_left (add_term data)
            (Itertools.combinations_with_replacement (Z.to_nat o)
                                                     (Pandas.columns data))
            poly_data.

Definition build_polynomial_dataframe (data : Pandas.DataFrame cell)
           (der : Z) : Pandas.DataFrame cell :=
  let poly_data := Pandas.copy data in
  fold_left (add_order data) (Py.range 1 (der + 1)) poly_data.

End PolynomialExpander.


(** ** scikit-learn: [model_selection.KFold] *)

Module Sklearn.
Import Py.

Record KFold : Type := mkKFold {
  n_splits : Z;
  shuffle : bool
}.

(** [KFold(n_splits=..., shuffle=...)]: the constructor refuses fewer
    than two splits. *)
Definition KFold_init (n_splits : Z) (shuffle : bool) : result KFold :=
  if (n_splits <=? 1)%Z then Raise (ValueError (NSplitsTooSmall n_splits))
  else Ok (mkKFold n_splits shuffle).

(** The first [n_samples % n_splits] folds have [n_samples // n_splits + 1]
    members, the others [n_samples // n_splits]. *)
Definition fold_sizes (n_samples n_splits : nat) : list nat :=
  map (fun i => n_samples / n_splits
                + (if i <? n_samples mod n_splits then 1 else 0))
      (seq 0 n_splits).

(** Consecutive slices [indices[start:stop]] of the sizes given. *)
Fixpoint iter_slices (indices : list nat) (sizes : list nat) (current : nat)
  : list (list nat) :=
  match sizes with
  | [] => []
  | fold_size :: rest =>
      let start := current in
      let stop := current + fold_size in
      slice indices start stop :: iter_slices indices rest stop
  end.

Section Split.

(** The random permutation drawn by the generator: what
    [RandomState.shuffle] leaves in the array it is given. *)
Variable rng_shuffle : list nat -> list nat.

Definition iter_test_indices (kf : KFold) (n_samples : nat)
  : list (list nat) :=
  let indices := seq 0 n_samples in
  let indices := if shuffle kf then rng_shuffle indices else indices in
  iter_slices indices (fold_sizes n_samples (Z.to_nat (n_splits kf))) 0.

(** One fold from the members of its test set, through a boolean mask
    over [arange(n_samples)]: both index arrays come out ascending. *)
Definition fold_of_test (n_samples : nat) (test_index : list nat)
  : list nat * list nat :=
  let indices := seq 0 n_samples in
  let test_mask := fun i => existsb (Nat.eqb i) test_index in
  (filter (fun i => negb (test_mask i)) indices, filter test_mask indices).

(** [kfold.split(X, y)]: the (train, test) pairs in the order they are
    yielded, or the [ValueError] raised before the first one. *)
Definition split {A B : Type} (kf : KFold) (X : list A) (y : list B)
  : result (list (list nat * list nat)) :=
  if negb (List.length X =? List.length y)
  then Raise (ValueError (InconsistentLengths (List.length X)
                                              (List.length y)))
  else
    let n_samples := List.length X in
    if (Z.of_nat n_samples <? n_splits kf)%Z
    then Raise (ValueError (NSplitsExceedsSamples (n_splits kf) n_samples))
    else Ok (map (fold_of_test n_samples) (iter_test_indices kf n_samples)).

End Split.

End Sklearn.

(** ** train_n_test *)

Import Py Py.Notations.

(** What a progress notice reports: the study number, the fold count as
    given, the sizes of the two index sets and, in the long form, the first
    five test indices. *)
Inductive notice : Type :=
| Concise (study : Z) (n_folds : Z) (n_train n_test : nat)
| Verbose (study : Z) (n_folds : Z) (n_train n_test : nat)
          (first_test : list nat).

(** The calls the function makes on its collaborators, with the row indices
    they are made on. *)
Inductive event : Type :=
| Info (msg : notice)
| Fit (rows : list nat)
| Score (rows : list nat).

Section CrossValidator.

(** A feature row, a target value, a prediction, a score. *)
Variables row target pred score : Type.

(** The state of a model object, and its two methods: [fit] changes the
    object, [predict] reads it. *)
Variable M : Type.
Variable fit : M -> list row -> list target -> M.
Variable predict : M -> list row -> list pred.

(** A freshly constructed [LinearRegression()] and
    [metrics.mean_squared_error]. *)
Variable LinearRegression : M.
Variable mean_squared_error : list target -> list pred -> score.

Variable rng_shuffle : list nat -> list nat.

(** The objects a caller can observe, and the calls made so far (oldest
    first).  The target is the caller's pandas object; the loop reads its
    flattened values. *)
Record state : Type := mkState {
  st_X : list row;
  st_y : Pandas.NDFrame target;
  st_model : M;
  st_trace : list event
}.

(** [logging.info(msg)] *)
Definition logging_info (msg : notice) : prog state unit :=
  fun st => (mkState (st_X st) (st_y st) (st_model st)
                     (st_trace st ++ [Info msg]),
             Ok tt).

(** [model.fit(Xm[train], y[train])]: the model object is changed in
    place. *)
Definition model_fit (train : list nat) : prog state unit :=
  fun st => (mkState (st_X st) (st_y st)
                     (fit (st_model st) (take (st_X st) train)
                          (take (Pandas.values_ravel (st_y st)) train))
                     (st_trace st ++ [Fit train]),
             Ok tt).

(** [metric(y[test], model.predict(Xm[test]))] *)
Definition model_score (metric : list target -> list pred -> score)
           (test : list nat) : prog state score :=
  fun st => (mkState (st_X st) (st_y st) (st_model st)
                     (st_trace st ++ [Score test]),
             Ok (metric (take (Pandas.values_ravel (st_y st)) test)
                        (predict (st_model st) (take (st_X st) test)))).

(** The index sets the body works with: [train, test = (test, train)]
    when [train_on_minority] is set. *)
Definition roles (train_on_minority : bool) (fold : list nat * list nat)
  : list nat * list nat :=
  let '(train, test) := fold in
  if train_on_minority then (test, train) else (train, test).

(** The body of the loop over the folds; [scores] is the list built so
    far. *)
Definition fold_body (n_folds : Z) (update_frequency : Z)
           (metric : list target -> list pred -> score)
           (train_on_minority concise : bool)
           (fold : list nat * list nat) (scores : list score)
  : prog state (list score) :=
  let '(train, test) := roles train_on_minority fold in
  r <- lift (mod_ (Z.of_nat (List.length scores)) update_frequency) ;;
  (if (r =? 0)%Z then
     if negb concise then
       logging_info (Verbose (Z.of_nat (List.length scores) + 1) n_folds
                             (List.length train) (List.length test)
                             (slice test 0 5))
     else
       logging_info (Concise (Z.of_nat (List.length scores) + 1) n_folds
                             (List.length train) (List.length test))
   else ret tt) ;;
  model_fit train ;;
  score <- model_score metric test ;;
  ret (scores ++ [score]).

(** The value [update_frequency] has after the first statement, where
    [y] is still the pandas object. *)
Definition resolve_update_frequency (update_frequency : option Z)
           (y : Pandas.NDFrame target) : Z :=
  or_ update_frequency (Z.of_nat (Pandas.len y) - 1).

(** The function, from the arguments to the state it leaves and the
    score list or exception it ends with.  [model = None] and
    [metric = None] select the defaults; with [model = Some m] the object
    in the state is the caller's.  [X] is given by the rows of
    [X.values].  The frequency is resolved on the target as passed, the
    splitter and the loop work on its flattened values.  The assertion
    lets an [int] through only, and [int(n_folds)] of an [int] is that
    [int]. *)
Definition train_n_test (X : list row) (y : Pandas.NDFrame target)
           (n_folds : object)
           (update_frequency : option Z) (model : option M)
           (metric : option (list target -> list pred -> score))
           (train_on_minority concise : bool)
  : state * result (list score) :=
  let update_frequency := resolve_update_frequency update_frequency y in
  let model := match model with None => LinearRegression | Some m => m end in
  let metric :=
    match metric with None => mean_squared_error | Some f => f end in
  let run : prog state (list score) :=
    match n_folds with
    | PyInt k =>
        kfold <- lift (Sklearn.KFold_init k true) ;;
        folds <- lift (Sklearn.split rng_shuffle kfold X
                                     (Pandas.values_ravel y)) ;;
        for_each folds
                 (fold_body k update_frequency metric train_on_minority
                            concise)
                 []
    | _ => raise (AssertionError "Please provide int number of folds")
    end in
  run (mkState X y model []).

(** *** What a run is compared with *)

(** The folds the loop goes through: those of the splitter when the fold
    count is accepted, none otherwise. *)
Definition folds_of (X : list row) (y : list target) (n_folds : object)
  : list (list nat * list nat) :=
  match n_folds with
  | PyInt k =>
      match Sklearn.KFold_init k true with
      | Ok kfold =>
          match Sklearn.split rng_shuffle kfold X y with
          | Ok folds => folds
          | Raise _ => []
          end
      | Raise _ => []
      end
  | _ => []
  end.

(** The model after it has been fitted on each training set in turn. *)
Definition fitted (X : list row) (y : list target)
           (sets : list (list nat * list nat)) (m : M) : M :=
  fold_left (fun m s => fit m (take X (fst s)) (take y (fst s))) sets m.

(** The scores of the folds, each from the model as fitted up to and
    including that fold. *)
Fixpoint fold_scores (metric : list target -> list pred -> score)
         (X : list row) (y : list target)
         (sets : list (list nat * list nat)) (m : M) : list score :=
  match sets with
  | [] => []
  | (train, test) :: rest =>
      let m' := fit m (take X train) (take y train) in
      metric (take y test) (predict m' (take X test))
      :: fold_scores metric X y rest m'
  end.

End CrossValidator.

(** The index sets the model was fitted on, and those it was scored on, in
    the order of the calls. *)
Definition fitted_rows (tr : list event) : list (list nat) :=
  flat_map (fun e => match e with Fit r => [r] | _ => [] end) tr.

Definition scored_rows (tr : list event) : list (list nat) :=
  flat_map (fun e => match e with Score r => [r] | _ => [] end) tr.

Definition notices (tr : list event) : list notice :=
  flat_map (fun e => match e with Info msg => [msg] | _ => [] end) tr.


(** ** The calls of a run, fold by fold *)

(** The study number a notice carries, and the two sizes it reports. *)
Definition study (msg : notice) : Z :=
  match msg with
  | Concise s _ _ _ | Verbose s _ _ _ _ => s
  end.

Definition reported_sizes (msg : notice) : nat * nat :=
  match msg with
  | Concise _ _ n_train n_test | Verbose _ _ n_train n_test _ =>
      (n_train, n_test)
  end.

(** The notice of the fold of zero-based index [i], worked with the index
    sets [r]. *)
Definition notice_for (concise : bool) (n_folds : Z) (i : nat)
           (r : list nat * list nat) : notice :=
  if negb concise then
    Verbose (Z.of_nat i + 1) n_folds (List.length (fst r))
            (List.length (snd r)) (slice (snd r) 0 5)
  else
    Concise (Z.of_nat i + 1) n_folds (List.length (fst r))
            (List.length (snd r)).

(** The calls of the folds from index [i] on: a notice where the index is
    a multiple of the frequency, then the fit, then the score. *)
Fixpoint loop_trace (concise : bool) (n_folds update_frequency : Z)
         (i : nat) (sets : list (list nat * list nat)) : list event :=
  match sets with
  | [] => []
  | r :: rest =>
      (if (Z.of_nat i mod update_frequency =? 0)%Z
       then [Info (notice_for concise n_folds i r)] else [])
      ++ [Fit (fst r); Score (snd r)]
      ++ loop_trace concise n_folds update_frequency (S i) rest
  end.

(** The calls on the model and the metric, the notices left out. *)
Definition model_calls (tr : list event) : list event :=
  filter (fun e => match e with Info _ => false | _ => true end) tr.

(** ** The terms of an expansion *)

(** The tuples of labels the two loops of [build_polynomial_dataframe] go
    through, in order, and the label a tuple is written under. *)
Definition terms {cell : Type} (data : Pandas.DataFrame cell) (der : Z)
  : list (list string) :=
  flat_map (fun o => Itertools.combinations_with_replacement
                       (Z.to_nat o) (Pandas.columns data))
           (Py.range 1 (der + 1)).

Definition label (tpl : list string) : string :=
  String.concat "_x_"%string tpl.

(** A table with every missing cell replaced by 1. *)
Definition fill_missing {cell : Type} {dtype : Pandas.Dtype cell}
           (data : Pandas.DataFrame cell) : Pandas.DataFrame cell :=
  Pandas.mkDataFrame (Pandas.nrows data)
    (map (fun c => (fst c, map Pandas.nan_to_one (snd c))) (Pandas.cols data)).

(** No cell of the table is missing. *)
Definition no_missing {cell : Type} {dtype : Pandas.Dtype cell}
           (data : Pandas.DataFrame cell) : Prop :=
  Forall (fun c => Forall (fun x => Pandas.isnan x = false) (snd c))
         (Pandas.cols data).

(** The cell of the column labelled [c] in row [i]. *)
Definition cell_at {cell : Type} {dtype : Pandas.Dtype cell}
           (data : Pandas.DataFrame cell) (c : string) (i : nat) : cell :=
  nth i (match Pandas.column data c with Some v => v | None => [] end)
      Pandas.one.

(** The product of the cells of a row from left to right, missing cells
    counting as 1. *)
Definition row_product {cell : Type} {dtype : Pandas.Dtype cell}
           (cells : list cell) : cell :=
  match cells with
  | [] => Pandas.one
  | c :: rest =>
      fold_left Pandas.mul (map Pandas.nan_to_one rest) (Pandas.nan_to_one c)
  end.

(** ** Sample data

    A small table and a small model on integers, to run the functions on:
    the model keeps the sum of the targets it was last fitted on and
    predicts it for every row. *)

Module Sample.

Definition table : Pandas.DataFrame Z :=
  Pandas.mkDataFrame 2 [("a"%string, [2; 3]%Z); ("b"%string, [5; 7]%Z)].



Definition X : list Z := [10; 20; 30; 40; 50]%Z.
Definition y : list Z := [1; 2; 3; 4; 5]%Z.

(** The same five targets as a frame of one row and five columns. *)
Definition y_one_row : Pandas.NDFrame Z := Pandas.Frame [y].

Definition fit (m : Z) (Xtrain ytrain : list Z) : Z :=
  fold_right Z.add 0%Z ytrain.

Definition predict (m : Z) (Xtest : list Z) : list Z :=
  map (fun _ => m) Xtest.

Definition squared_error (y_true y_pred : list Z) : Z :=
  fold_right Z.add 0%Z
             (Pandas.zip_with (fun a b => ((a - b) * (a - b))%Z)
                              y_true y_pred).

(** A generator that happens to reverse the indices. *)
Definition shuffle (indices : list nat) : list nat := rev indices.

Definition run :=
  train_n_test fit predict 0%Z squared_error shuffle.

(** The splitter for two folds, and the folds it yields on five rows
    under [shuffle]. *)
Definition kfold : Sklearn.KFold := Sklearn.mkKFold 2 true.

Definition folds : list (list nat * list nat) :=
  [([0; 1], [2; 3; 4]); ([2; 3; 4], [0; 1])].

(** A table without columns. *)
Definition empty_table : Pandas.DataFrame Z := Pandas.mkDataFrame 2 [].

End Sample.

(** * Properties *)

Unset Implicit Arguments.

(** ** The splitter *)

Lemma fold_sizes_length (n_samples n_splits : nat) :
  List.length (Sklearn.fold_sizes n_samples n_splits) = n_splits.
Proof.
  unfold Sklearn.fold_sizes. now rewrite length_map, length_seq.
Qed.

Lemma iter_slices_length (indices sizes : list nat) :
  forall current,
    List.length (Sklearn.iter_slices indices sizes current)
    = List.length sizes.
Proof.
  induction sizes as [|sz rest IH]; intros current; simpl.
  - reflexivity.
  - now rewrite IH.
Qed.

Lemma split_inv (rng_shuffle : list nat -> list nat) (A B : Type)
      (kf : Sklearn.KFold) (X : list A) (y : list B) folds :
  Sklearn.split rng_shuffle kf X y = Ok folds ->
  List.length X = List.length y
  /\ (Sklearn.n_splits kf <= Z.of_nat (List.length y))%Z
  /\ List.length folds = Z.to_nat (Sklearn.n_splits kf).
Proof.
  unfold Sklearn.split.
  destruct (Nat.eqb_spec (List.length X) (List.length y)) as [E|E]; simpl;
    [|discriminate].
  destruct (Z.ltb_spec (Z.of_nat (List.length X)) (Sklearn.n_splits kf));
    [discriminate|].
  intros [= <-]. repeat split; [assumption|lia|].
  unfold Sklearn.iter_test_indices.
  now rewrite length_map, iter_slices_length, fold_sizes_length.
Qed.

Lemma split_ok (rng_shuffle : list nat -> list nat) (A B : Type)
      (kf : Sklearn.KFold) (X : list A) (y : list B) :
  List.length X = List.length y ->
  (Sklearn.n_splits kf <= Z.of_nat (List.length y))%Z ->
  exists folds, Sklearn.split rng_shuffle kf X y = Ok folds.
Proof.
  intros E H. unfold Sklearn.split.
  rewrite E, Nat.eqb_refl. simpl.
  destruct (Z.ltb_spec (Z.of_nat (List.length y)) (Sklearn.n_splits kf));
    [lia|].
  eexists; reflexivity.
Qed.

(** Both index arrays of a fold hold row indices only, so indexing the
    data with them finds every position. *)
Lemma fold_of_test_in_range (n_samples : nat) (test_index : list nat) :
  Forall (fun i => i < n_samples)
         (fst (Sklearn.fold_of_test n_samples test_index))
  /\ Forall (fun i => i < n_samples)
            (snd (Sklearn.fold_of_test n_samples test_index)).
Proof.
  unfold Sklearn.fold_of_test; simpl.
  split; apply Forall_forall; intros i Hi;
    apply filter_In in Hi; destruct Hi as [Hi _];
    apply in_seq in Hi; lia.
Qed.

Lemma split_in_range (rng_shuffle : list nat -> list nat) (A B : Type)
      (kf : Sklearn.KFold) (X : list A) (y : list B) folds :
  Sklearn.split rng_shuffle kf X y = Ok folds ->
  Forall (fun f => Forall (fun i => i < List.length X) (fst f)
                   /\ Forall (fun i => i < List.length X) (snd f)) folds.
Proof.
  unfold Sklearn.split.
  destruct (negb _); [discriminate|].
  destruct (_ <? _)%Z; [discriminate|].
  intros [= <-]. apply Forall_map, Forall_forall.
  intros t _. apply fold_of_test_in_range.
Qed.

Lemma take_length (A : Type) (a : list A) (idx : list nat) :
  Forall (fun i => i < List.length a) idx ->
  List.length (take a idx) = List.length idx.
Proof.
  induction 1 as [|i idx Hi _ IH]; simpl.
  - reflexivity.
  - apply nth_error_Some in Hi. unfold take in *. simpl.
    destruct (nth_error a i); [|contradiction].
    simpl. now rewrite IH.
Qed.

Lemma KFold_init_inv (k : Z) (sh : bool) kf :
  Sklearn.KFold_init k sh = Ok kf ->
  (2 <= k)%Z /\ kf = Sklearn.mkKFold k sh.
Proof.
  unfold Sklearn.KFold_init.
  destruct (Z.leb_spec k 1); [discriminate|].
  intros [= <-]. split; [lia|reflexivity].
Qed.

Lemma KFold_init_ok (k : Z) (sh : bool) :
  (2 <= k)%Z -> Sklearn.KFold_init k sh = Ok (Sklearn.mkKFold k sh).
Proof.
  intros H. unfold Sklearn.KFold_init.
  destruct (Z.leb_spec k 1); [lia|reflexivity].
Qed.

(** ** The loop over the folds *)

Section CrossValidatorFacts.

Variables row target pred score M : Type.
Variable fit : M -> list row -> list target -> M.
Variable predict : M -> list row -> list pred.
Variable LinearRegression : M.
Variable mean_squared_error : list target -> list pred -> score.
Variable rng_shuffle : list nat -> list nat.

Let state := state row target M.
Let body := fold_body (score := score) fit predict.
Let run := train_n_test fit predict LinearRegression mean_squared_error
                        rng_shuffle.

Lemma fitted_rows_app (tr tr' : list event) :
  fitted_rows (tr ++ tr') = fitted_rows tr ++ fitted_rows tr'.
Proof. apply flat_map_app. Qed.

Lemma scored_rows_app (tr tr' : list event) :
  scored_rows (tr ++ tr') = scored_rows tr ++ scored_rows tr'.
Proof. apply flat_map_app. Qed.

(** One turn of the loop with a non-zero frequency: it does not raise,
    leaves the table and the target alone, fits the model object once
    and appends one score. *)
Lemma fold_body_run (k uf : Z) metric (tom concise : bool)
      (fold : list nat * list nat) (scores : list score) (st : state) :
  uf <> 0%Z ->
  exists tr,
    body k uf metric tom concise fold scores st
    = (mkState (st_X st) (st_y st)
               (fitted fit (st_X st) (Pandas.values_ravel (st_y st))
                       [roles tom fold]
                       (st_model st))
               (st_trace st ++ tr),
       Ok (scores ++ fold_scores fit predict metric (st_X st)
                                 (Pandas.values_ravel (st_y st))
                                 [roles tom fold] (st_model st)))
    /\ fitted_rows tr = [fst (roles tom fold)]
    /\ scored_rows tr = [snd (roles tom fold)].
Proof.
  intros Huf. unfold body, fold_body.
  destruct (roles tom fold) as [train test]; simpl.
  unfold bind at 1. unfold lift, mod_.
  destruct (Z.eqb_spec uf 0) as [|_]; [contradiction|].
  set (r := (Z.of_nat (List.length scores) mod uf)%Z).
  destruct (r =? 0)%Z; [destruct concise; simpl|].
  - eexists [_; _; _]. unfold bind, logging_info, model_fit, model_score, ret.
    simpl. rewrite <- !app_assoc. simpl. repeat split.
  - eexists [_; _; _]. unfold bind, logging_info, model_fit, model_score, ret.
    simpl. rewrite <- !app_assoc. simpl. repeat split.
  - eexists [_; _]. unfold bind, model_fit, model_score, ret.
    simpl. rewrite <- !app_assoc. simpl. repeat split.
Qed.

(** The whole loop: one fit and one score per fold, in the order of the
    folds. *)
Lemma loop_run (k uf : Z) metric (tom concise : bool)
      (folds : list (list nat * list nat)) :
  uf <> 0%Z ->
  forall (scores : list score) (st : state),
  exists tr,
    for_each folds (body k uf metric tom concise) scores st
    = (mkState (st_X st) (st_y st)
               (fitted fit (st_X st) (Pandas.values_ravel (st_y st))
                       (map (roles tom) folds) (st_model st))
               (st_trace st ++ tr),
       Ok (scores ++ fold_scores fit predict metric (st_X st)
                                 (Pandas.values_ravel (st_y st))
                                 (map (roles tom) folds) (st_model st)))
    /\ fitted_rows tr = map fst (map (roles tom) folds)
    /\ scored_rows tr = map snd (map (roles tom) folds).
Proof.
  intros Huf. induction folds as [|fold rest IH]; intros scores st.
  - exists []. simpl. unfold ret. rewrite !app_nil_r.
    destruct st; repeat split.
  - simpl for_each. unfold bind at 1.
    destruct (fold_body_run k uf metric tom concise fold scores st Huf)
      as (tr1 & -> & F1 & S1).
    match goal with
    | |- context [for_each rest _ ?sc ?s] =>
        destruct (IH sc s) as (tr2 & -> & F2 & S2)
    end.
    exists (tr1 ++ tr2). simpl.
    rewrite fitted_rows_app, scored_rows_app, F1, S1, F2, S2.
    rewrite <- !app_assoc. simpl.
    destruct (roles tom fold) as [train test]. simpl. repeat split.
Qed.

Lemma fold_scores_length (metric : list target -> list pred -> score)
      (X : list row) (y : list target)
      (sets : list (list nat * list nat)) :
  forall m,
    List.length (fold_scores fit predict metric X y sets m)
    = List.length sets.
Proof.
  induction sets as [|[train test] rest IH]; intros m; simpl.
  - reflexivity.
  - now rewrite IH.
Qed.

(** *** The whole function *)

Let model_used (model : option M) : M :=
  match model with None => LinearRegression | Some m => m end.

Let metric_used (metric : option (list target -> list pred -> score)) :=
  match metric with None => mean_squared_error | Some f => f end.

Lemma resolve_update_frequency_nonzero (uf : option Z)
      (y : Pandas.NDFrame target) :
  2 <= Pandas.len y -> resolve_update_frequency uf y <> 0%Z.
Proof.
  intros H. unfold resolve_update_frequency, or_.
  destruct uf as [z|]; [destruct (Z.eqb_spec z 0)|]; lia.
Qed.

(** A call that gets past both argument checks of the splitter with a
    frequency other than 0 runs the loop to its end. *)
Lemma run_loop (X : list row) (y : Pandas.NDFrame target) (k : Z)
      (uf : option Z) model metric (tom concise : bool) kf folds :
  Sklearn.KFold_init k true = Ok kf ->
  Sklearn.split rng_shuffle kf X (Pandas.values_ravel y) = Ok folds ->
  resolve_update_frequency uf y <> 0%Z ->
  exists tr,
    run X y (PyInt k) uf model metric tom concise
    = (mkState X y
               (fitted fit X (Pandas.values_ravel y) (map (roles tom) folds)
                       (model_used model))
               tr,
       Ok (fold_scores fit predict (metric_used metric) X
                       (Pandas.values_ravel y)
                       (map (roles tom) folds) (model_used model)))
    /\ fitted_rows tr = map fst (map (roles tom) folds)
    /\ scored_rows tr = map snd (map (roles tom) folds).
Proof.
  intros Hk Hs Huf.
  unfold run, train_n_test. unfold bind at 1, lift at 1. rewrite Hk.
  unfold bind at 1, lift at 1. rewrite Hs.
  destruct (loop_run k _ (metric_used metric) tom concise folds Huf []
                     (mkState X y (model_used model) []))
    as (tr & E & F & S).
  exists tr. split; [|split; assumption].
  unfold body, model_used, metric_used in E. simpl in E. exact E.
Qed.

(** With the frequency 0 the first turn of the loop raises, before any
    notice, fit or score. *)
Lemma run_zero_frequency (X : list row) (y : Pandas.NDFrame target) (k : Z)
      (uf : option Z) model metric (tom concise : bool) kf folds :
  Sklearn.KFold_init k true = Ok kf ->
  Sklearn.split rng_shuffle kf X (Pandas.values_ravel y) = Ok folds ->
  resolve_update_frequency uf y = 0%Z ->
  run X y (PyInt k) uf model metric tom concise
  = (mkState X y (model_used model) [], Raise ZeroDivisionError).
Proof.
  intros Hk Hs Huf.
  destruct (KFold_init_inv _ _ _ Hk) as [Hk2 ->].
  destruct (split_inv _ _ _ _ _ _ _ Hs) as (_ & _ & Hn). simpl in Hn.
  unfold run, train_n_test. unfold bind at 1, lift at 1.
  rewrite (KFold_init_ok k true Hk2).
  unfold bind at 1, lift at 1. rewrite Hs, Huf.
  destruct folds as [|fold rest]; [simpl in Hn; lia|].
  simpl for_each. unfold bind at 1, fold_body.
  destruct (roles tom fold) as [train test].
  reflexivity.
Qed.

(** For a [Series] target the frequency is not 0 once the splitter has
    accepted the data. *)
Lemma run_accepted (X : list row) (y : list target) (k : Z)
      (uf : option Z) model metric (tom concise : bool) kf folds :
  Sklearn.KFold_init k true = Ok kf ->
  Sklearn.split rng_shuffle kf X y = Ok folds ->
  exists tr,
    run X (Pandas.Series y) (PyInt k) uf model metric tom concise
    = (mkState X (Pandas.Series y)
               (fitted fit X y (map (roles tom) folds) (model_used model))
               tr,
       Ok (fold_scores fit predict (metric_used metric) X y
                       (map (roles tom) folds) (model_used model)))
    /\ fitted_rows tr = map fst (map (roles tom) folds)
    /\ scored_rows tr = map snd (map (roles tom) folds).
Proof.
  intros Hk Hs.
  destruct (KFold_init_inv _ _ _ Hk) as [Hk2 Ekf].
  destruct (split_inv _ _ _ _ _ _ _ Hs) as (_ & Hle & _).
  rewrite Ekf in Hle. simpl in Hle.
  apply (run_loop X (Pandas.Series y) k uf model metric tom concise kf folds
                  Hk Hs).
  apply resolve_update_frequency_nonzero. simpl. lia.
Qed.

(** Every call either runs the loop to its end or is refused before the
    loop, by an exception of the argument checks, with nothing done. *)
Lemma run_cases (X : list row) (y : list target) (n_folds : object)
      (uf : option Z) model metric (tom concise : bool) :
  (exists k kf folds tr,
      n_folds = PyInt k
      /\ Sklearn.KFold_init k true = Ok kf
      /\ Sklearn.split rng_shuffle kf X y = Ok folds
      /\ run X (Pandas.Series y) n_folds uf model metric tom concise
         = (mkState X (Pandas.Series y)
                    (fitted fit X y (map (roles tom) folds)
                            (model_used model))
                    tr,
            Ok (fold_scores fit predict (metric_used metric) X y
                            (map (roles tom) folds) (model_used model))))
  \/ (exists e,
         folds_of rng_shuffle X y n_folds = []
         /\ invalid_argument e = true
         /\ run X (Pandas.Series y) n_folds uf model metric tom concise
            = (mkState X (Pandas.Series y) (model_used model) [], Raise e)).
Proof.
  destruct n_folds as [|b|k|m e|s];
    try (right; eexists; repeat split; reflexivity).
  destruct (Sklearn.KFold_init k true) as [kf|e] eqn:Hk.
  - destruct (Sklearn.split rng_shuffle kf X y) as [folds|e] eqn:Hs.
    + left.
      destruct (run_accepted X y k uf model metric tom concise kf folds Hk Hs)
        as (tr & E & _).
      now exists k, kf, folds, tr.
    + right. exists e. unfold folds_of. rewrite Hk, Hs.
      repeat split.
      * unfold Sklearn.split in Hs.
        destruct (negb _); [now inversion Hs|].
        destruct (_ <? _)%Z; [now inversion Hs|discriminate].
      * unfold run, train_n_test. unfold bind at 1, lift at 1. rewrite Hk.
        unfold bind at 1, lift at 1. cbn [Pandas.values_ravel].
        now rewrite Hs.
  - right. exists e. unfold folds_of. rewrite Hk. repeat split.
    + unfold Sklearn.KFold_init in Hk.
      destruct (_ <=? _)%Z; [now inversion Hk|discriminate].
    + unfold run, train_n_test. unfold bind at 1, lift at 1.
      now rewrite Hk.
Qed.

(** With at least two folds and at least as many rows, aligned, both
    checks pass. *)
Lemma run_valid (X : list row) (y : list target) (k : Z)
      (uf : option Z) model metric (tom concise : bool) :
  (2 <= k)%Z ->
  (k <= Z.of_nat (List.length y))%Z ->
  List.length X = List.length y ->
  exists tr folds,
    Sklearn.split rng_shuffle (Sklearn.mkKFold k true) X y = Ok folds
    /\ List.length folds = Z.to_nat k
    /\ run X (Pandas.Series y) (PyInt k) uf model metric tom concise
       = (mkState X (Pandas.Series y)
                  (fitted fit X y (map (roles tom) folds)
                          (model_used model))
                  tr,
          Ok (fold_scores fit predict (metric_used metric) X y
                          (map (roles tom) folds) (model_used model))).
Proof.
  intros H2 Hle Hlen.
  destruct (split_ok rng_shuffle _ _ (Sklearn.mkKFold k true) X y Hlen Hle)
    as [folds Hs].
  destruct (run_accepted X y k uf model metric tom concise _ folds
                         (KFold_init_ok k true H2) Hs) as (tr & E & _).
  destruct (split_inv _ _ _ _ _ _ _ Hs) as (_ & _ & Hn). simpl in Hn.
  now exists tr, folds.
Qed.

(** With a [Series] target the modulo is never evaluated with a zero
    divisor. *)
Lemma run_no_zero_division (X : list row) (y : list target)
      (n_folds : object) (uf : option Z) model metric (tom concise : bool) :
  snd (run X (Pandas.Series y) n_folds uf model metric tom concise)
  <> Raise ZeroDivisionError.
Proof.
  destruct (run_cases X y n_folds uf model metric tom concise)
    as [(k & kf & folds & tr & _ & _ & _ & ->)|(e & _ & He & ->)]; simpl.
  - discriminate.
  - intros [= ->]. discriminate.
Qed.

Lemma roles_swapped (fold : list nat * list nat) :
  roles true fold = (snd fold, fst fold).
Proof. now destruct fold. Qed.

Lemma roles_plain (fold : list nat * list nat) : roles false fold = fold.
Proof. now destruct fold. Qed.

Lemma folds_of_accepted (X : list row) (y : list target) (k : Z) kf folds :
  Sklearn.KFold_init k true = Ok kf ->
  Sklearn.split rng_shuffle kf X y = Ok folds ->
  folds_of rng_shuffle X y (PyInt k) = folds.
Proof. intros Hk Hs. unfold folds_of. now rewrite Hk, Hs. Qed.

(** *** What [train_n_test] does *)

(** C1 (amended).  When the caller leaves [update_frequency] out, the
    frequency used is [len(y) - 1], the number of target rows less one,
    whatever [n_folds] is: the call behaves as the one where
    [len(y) - 1] is passed for it. *)
Theorem update_frequency_defaults_to_rows_minus_1
        (X : list row) (y : Pandas.NDFrame target) (n_folds : object)
        model metric (tom concise : bool) :
  resolve_update_frequency None y = (Z.of_nat (Pandas.len y) - 1)%Z
  /\ run X y n_folds None model metric tom concise
     = run X y n_folds (Some (Z.of_nat (Pandas.len y) - 1)%Z) model metric
           tom concise.
Proof.
  split; [reflexivity|].
  assert (E : resolve_update_frequency
                (Some (Z.of_nat (Pandas.len y) - 1)%Z) y
              = resolve_update_frequency None y).
  { unfold resolve_update_frequency, or_.
    destruct (Z.eqb_spec (Z.of_nat (Pandas.len y) - 1) 0); reflexivity. }
  unfold run, train_n_test. now rewrite E.
Qed.

(** C2.  A call whose fold count is 0 or is not an [int] is refused: it
    ends with an exception of the argument checks ([ValueError] from the
    splitter's constructor for 0, [AssertionError] otherwise), before
    the loop, with no call made on the model or the metric and the model
    object as it was. *)
Theorem bad_fold_count_rejected
        (X : list row) (y : Pandas.NDFrame target) (n_folds : object)
        (uf : option Z) model metric (tom concise : bool) :
  n_folds = PyInt 0 \/ type_is_int n_folds = false ->
  exists e,
    run X y n_folds uf model metric tom concise
    = (mkState X y (model_used model) [], Raise e)
    /\ invalid_argument e = true
    /\ e = match n_folds with
           | PyInt _ => ValueError (NSplitsTooSmall 0)
           | _ => AssertionError "Please provide int number of folds"
           end.
Proof.
  intros [->|H].
  - eexists; repeat split.
  - destruct n_folds; try discriminate H; eexists; repeat split.
Qed.

(** C3.  For a fold count [k] the splitter accepts ([2 <= k]) and
    row-aligned features and target of at least [k] rows, the call
    returns a score list of length exactly [k]; its scores are those of
    the folds in the order the splitter yields them. *)
Theorem scores_one_per_fold
        (X : list row) (y : list target) (k : Z)
        (uf : option Z) model metric (tom concise : bool) :
  (2 <= k)%Z ->
  (k <= Z.of_nat (List.length y))%Z ->
  List.length X = List.length y ->
  exists st scores folds,
    run X (Pandas.Series y) (PyInt k) uf model metric tom concise = (st, Ok scores)
    /\ Z.of_nat (List.length scores) = k
    /\ Sklearn.split rng_shuffle (Sklearn.mkKFold k true) X y = Ok folds
    /\ List.length folds = List.length scores
    /\ scores = fold_scores fit predict (metric_used metric) X y
                            (map (roles tom) folds) (model_used model).
Proof.
  intros H2 Hle Hlen.
  destruct (run_valid X y k uf model metric tom concise H2 Hle Hlen)
    as (tr & folds & Hs & Hn & E).
  do 3 eexists. split; [exact E|].
  rewrite fold_scores_length, length_map, Hn.
  repeat split; try assumption. lia.
Qed.

(** C4.  A call with [update_frequency = 0] can reach the modulo with a
    zero divisor.  0 is falsy, so the first statement replaces it by
    [len(y) - 1], which is 0 again when the target has one row; when that
    target is a frame of one row and several columns, its flattened
    values give the splitter its samples, the loop is entered, and its
    first turn evaluates [0 % 0]: the call ends in [ZeroDivisionError],
    before any notice, fit or score. *)
Theorem update_frequency_zero_divides_by_zero
        (X : list row) (y : Pandas.NDFrame target) (k : Z)
        model metric (tom concise : bool) :
  Pandas.len y = 1 ->
  List.length X = List.length (Pandas.values_ravel y) ->
  (2 <= k <= Z.of_nat (List.length X))%Z ->
  run X y (PyInt k) (Some 0%Z) model metric tom concise
  = (mkState X y (model_used model) [], Raise ZeroDivisionError).
Proof.
  intros Hone Hlen [H2 Hle].
  destruct (split_ok rng_shuffle _ _ (Sklearn.mkKFold k true) X
                     (Pandas.values_ravel y) Hlen ltac:(simpl; lia))
    as [folds Hs].
  apply (run_zero_frequency X y k (Some 0%Z) model metric tom concise _ folds
                            (KFold_init_ok k true H2) Hs).
  unfold resolve_update_frequency. now rewrite Hone.
Qed.

(** C7.  On the folds the splitter yields, a call with
    [train_on_minority = True] fits the model on each fold's test index
    set and scores it on the fold's train index set, a call with
    [train_on_minority = False] does the reverse; the two index sets of
    a fold are complements of each other among the row indices. *)
Theorem swap_exchanges_roles
        (X : list row) (y : list target) (k : Z)
        (uf : option Z) model metric (concise : bool) kf folds :
  Sklearn.KFold_init k true = Ok kf ->
  Sklearn.split rng_shuffle kf X y = Ok folds ->
  let swapped := run X (Pandas.Series y) (PyInt k) uf model metric true concise in
  let plain := run X (Pandas.Series y) (PyInt k) uf model metric false concise in
  fitted_rows (st_trace (fst swapped)) = map snd folds
  /\ scored_rows (st_trace (fst swapped)) = map fst folds
  /\ fitted_rows (st_trace (fst plain)) = map fst folds
  /\ scored_rows (st_trace (fst plain)) = map snd folds
  /\ snd swapped
     = Ok (fold_scores fit predict (metric_used metric) X y
                       (map (fun f => (snd f, fst f)) folds)
                       (model_used model))
  /\ snd plain
     = Ok (fold_scores fit predict (metric_used metric) X y folds
                       (model_used model))
  /\ Forall (fun f => forall i,
                 In i (fst f) <-> i < List.length X /\ ~ In i (snd f))
            folds.
Proof.
  intros Hk Hs swapped plain.
  destruct (run_accepted X y k uf model metric true concise kf folds Hk Hs)
    as (tr1 & E1 & F1 & S1).
  destruct (run_accepted X y k uf model metric false concise kf folds Hk Hs)
    as (tr0 & E0 & F0 & S0).
  subst swapped plain. rewrite E1, E0. simpl.
  rewrite F1, S1, F0, S0, !map_map.
  rewrite (map_ext _ _ roles_plain), map_id.
  rewrite (map_ext _ _ roles_swapped).
  repeat split;
    try (apply map_ext; intros f; now rewrite ?roles_swapped, ?roles_plain).
  unfold Sklearn.split in Hs.
  destruct (negb _); [discriminate|].
  destruct (_ <? _)%Z; [discriminate|].
  injection Hs as <-. apply Forall_map, Forall_forall. intros t _ i.
  unfold Sklearn.fold_of_test. simpl.
  rewrite !filter_In, in_seq, negb_true_iff.
  destruct (existsb (Nat.eqb i) t); intuition (try discriminate; try lia).
Qed.

(** C9 (amended).  After a call the feature table and the target vector
    are as they were.  The model object is not: it has been fitted, in
    place, on the training set of each fold the loop went through, in
    turn. *)
Theorem caller_state_after_run
        (X : list row) (y : list target) (n_folds : object)
        (uf : option Z) model metric (tom concise : bool) :
  let st := fst (run X (Pandas.Series y) n_folds uf model metric tom concise) in
  st_X st = X
  /\ st_y st = Pandas.Series y
  /\ st_model st
     = fitted fit X y (map (roles tom) (folds_of rng_shuffle X y n_folds))
              (model_used model).
Proof.
  destruct (run_cases X y n_folds uf model metric tom concise)
    as [(k & kf & folds & tr & -> & Hk & Hs & E)|(e & Hf & _ & E)];
    intros st; subst st; rewrite E.
  - now rewrite (folds_of_accepted X y k kf folds Hk Hs).
  - now rewrite Hf.
Qed.

(** C10.  The fold count 1 is an [int] and passes the assertion, and the
    call is refused all the same, by the [ValueError] of the splitter's
    constructor.  The fold counts with which a call returns a score list
    are the [int]s from 2 up to the number of rows (of row-aligned
    data). *)
Theorem fold_count_one_rejected
        (X : list row) (y : list target) (n_folds : object)
        (uf : option Z) model metric (tom concise : bool) :
  (type_is_int (PyInt 1) = true
   /\ run X (Pandas.Series y) (PyInt 1) uf model metric tom concise
      = (mkState X (Pandas.Series y) (model_used model) [],
         Raise (ValueError (NSplitsTooSmall 1))))
  /\ ((exists scores,
         snd (run X (Pandas.Series y) n_folds uf model metric tom concise) = Ok scores)
      <-> (exists k, n_folds = PyInt k
                     /\ (2 <= k <= Z.of_nat (List.length y))%Z
                     /\ List.length X = List.length y)).
Proof.
  split; [split; reflexivity|]. split.
  - intros [scores Hr].
    destruct (run_cases X y n_folds uf model metric tom concise)
      as [(k & kf & folds & tr & -> & Hk & Hs & _)|(e & _ & _ & E)].
    + exists k. destruct (KFold_init_inv _ _ _ Hk) as [H2 ->].
      destruct (split_inv _ _ _ _ _ _ _ Hs) as (Hlen & Hle & _).
      simpl in Hle. repeat split; assumption || lia.
    + rewrite E in Hr. discriminate.
  - intros (k & -> & [H2 Hle] & Hlen).
    destruct (run_valid X y k uf model metric tom concise H2 Hle Hlen)
      as (tr & folds & _ & _ & E).
    eexists. now rewrite E.
Qed.

End CrossValidatorFacts.

(** ** build_polynomial_dataframe *)

Section PolynomialExpanderFacts.

Context {cell : Type} {dtype : Pandas.Dtype cell}.

Lemma copy_id (df : Pandas.DataFrame cell) : Pandas.copy df = df.
Proof. now destruct df. Qed.

(** No order from 1 up to a [der] below 1: the table comes back as it is. *)
Lemma build_polynomial_dataframe_no_order (data : Pandas.DataFrame cell)
      (der : Z) :
  (der <= 0)%Z -> build_polynomial_dataframe data der = data.
Proof.
  intros H. unfold build_polynomial_dataframe, Py.range.
  replace (Z.to_nat (der + 1 - 1)) with 0 by lia.
  apply copy_id.
Qed.

Lemma existsb_label (cs : list (string * list cell)) (name : string) :
  existsb (fun c => String.eqb (fst c) name) cs
  = existsb (String.eqb name) (map fst cs).
Proof.
  induction cs as [|c cs IH]; simpl; [reflexivity|].
  now rewrite IH, (String.eqb_sym name (fst c)).
Qed.

Lemma columns_set_column (cs : list (string * list cell)) (name : string)
      (v : list cell) :
  map fst (Pandas.set_column cs name v)
  = if existsb (String.eqb name) (map fst cs) then map fst cs
    else map fst cs ++ [name].
Proof.
  unfold Pandas.set_column. rewrite existsb_label.
  destruct (existsb _ _).
  - rewrite map_map. apply map_ext. intros c.
    now destruct (String.eqb (fst c) name).
  - now rewrite map_app.
Qed.

Lemma setitem_NoDup (df : Pandas.DataFrame cell) (name : string)
      (v : list cell) :
  NoDup (Pandas.columns df) ->
  NoDup (Pandas.columns (Pandas.setitem df name v)).
Proof.
  intros H. unfold Pandas.columns, Pandas.setitem. simpl.
  rewrite columns_set_column.
  destruct (existsb _ _) eqn:E; [assumption|].
  apply NoDup_app; [assumption|repeat constructor; intros []|].
  intros a Ha [->|[]].
  assert (E' : existsb (String.eqb a) (map fst (Pandas.cols df)) = true).
  { apply existsb_exists. exists a. split; [assumption|apply String.eqb_refl]. }
  congruence.
Qed.

(** X21.  Column labels stay distinct, whatever the table and the order:
    a table with no label twice is expanded to a table with no label
    twice. *)
Lemma build_polynomial_dataframe_NoDup (data : Pandas.DataFrame cell)
      (der : Z) :
  NoDup (Pandas.columns data) ->
  NoDup (Pandas.columns (build_polynomial_dataframe data der)).
Proof.
  intros H. unfold build_polynomial_dataframe. rewrite copy_id.
  generalize (Py.range 1 (der + 1)). intros os.
  revert H. generalize data at 1 3 as poly_data.
  induction os as [|o os IH]; intros poly_data H; simpl; [assumption|].
  apply IH. unfold add_order.
  generalize (Itertools.combinations_with_replacement
                (Z.to_nat o) (Pandas.columns data)).
  intros tpls. revert poly_data H.
  induction tpls as [|tpl tpls IHt]; intros poly_data H; simpl; [assumption|].
  apply IHt. unfold add_term. now apply setitem_NoDup.
Qed.

Lemma nan_to_one_present (v : list cell) :
  Forall (fun x => Pandas.isnan x = false) v ->
  map Pandas.nan_to_one v = v.
Proof.
  induction 1 as [|x v Hx _ IH]; simpl; [reflexivity|].
  unfold Pandas.nan_to_one at 1. now rewrite Hx, IH.
Qed.


(** C5 (amended).  For every table and every negative [der] the function
    returns the table as it is, with no column generated; it does not
    fail. *)
Theorem negative_degree_returns_table (data : Pandas.DataFrame cell)
        (der : Z) :
  (der < 0)%Z -> build_polynomial_dataframe data der = data.
Proof.
  intros H. apply build_polynomial_dataframe_no_order. lia.
Qed.


(** C8.  With [der = 0] the result is the table itself: the same columns
    with the same values, and none generated. *)
Theorem degree_zero_is_identity (data : Pandas.DataFrame cell) :
  build_polynomial_dataframe data 0 = data.
Proof.
  apply build_polynomial_dataframe_no_order. lia.
Qed.

End PolynomialExpanderFacts.

(** ** The functions on the sample data *)

Lemma bad_fold_count_rejected_witness :
  exists e,
    Sample.run Sample.X (Pandas.Series Sample.y) (PyInt 0) None (Some 7%Z)
               None false true
    = (mkState Sample.X (Pandas.Series Sample.y) 7%Z [], Raise e)
    /\ invalid_argument e = true
    /\ e = ValueError (NSplitsTooSmall 0).
Proof.
  apply (bad_fold_count_rejected
           Z Z Z Z Z Sample.fit Sample.predict 0%Z Sample.squared_error
           Sample.shuffle Sample.X (Pandas.Series Sample.y) (PyInt 0) None
           (Some 7%Z) None false true).
  left. reflexivity.
Defined.

Lemma scores_one_per_fold_witness :
  exists st scores folds,
    Sample.run Sample.X (Pandas.Series Sample.y) (PyInt 2) None None None
               false true
    = (st, Ok scores)
    /\ Z.of_nat (List.length scores) = 2%Z
    /\ Sklearn.split Sample.shuffle (Sklearn.mkKFold 2 true) Sample.X Sample.y
       = Ok folds
    /\ List.length folds = List.length scores
    /\ scores = fold_scores Sample.fit Sample.predict Sample.squared_error
                            Sample.X Sample.y (map (roles false) folds) 0%Z.
Proof.
  apply (scores_one_per_fold
           Z Z Z Z Z Sample.fit Sample.predict 0%Z Sample.squared_error
           Sample.shuffle Sample.X Sample.y 2%Z None None None false true).
  - lia.
  - simpl. lia.
  - reflexivity.
Defined.

Lemma update_frequency_zero_divides_by_zero_witness :
  Sample.run Sample.X Sample.y_one_row (PyInt 2) (Some 0%Z) None None false
             true
  = (mkState Sample.X Sample.y_one_row 0%Z [], Raise ZeroDivisionError).
Proof.
  apply (update_frequency_zero_divides_by_zero
           Z Z Z Z Z Sample.fit Sample.predict 0%Z Sample.squared_error
           Sample.shuffle Sample.X Sample.y_one_row 2%Z None None false
           true).
  - reflexivity.
  - reflexivity.
  - simpl. lia.
Defined.

Lemma swap_exchanges_roles_witness :
  fitted_rows
    (st_trace (fst (Sample.run Sample.X (Pandas.Series Sample.y) (PyInt 2)
                               None None None true true)))
  = [[2; 3; 4]; [0; 1]]
  /\ scored_rows
       (st_trace (fst (Sample.run Sample.X (Pandas.Series Sample.y)
                                  (PyInt 2) None None None true true)))
     = [[0; 1]; [2; 3; 4]].
Proof.
  destruct (swap_exchanges_roles
              Z Z Z Z Z Sample.fit Sample.predict 0%Z Sample.squared_error
              Sample.shuffle Sample.X Sample.y 2%Z None None None true
              (Sklearn.mkKFold 2 true)
              [([0; 1], [2; 3; 4]); ([2; 3; 4], [0; 1])]
              eq_refl eq_refl) as (F & S & _).
  split; [exact F|exact S].
Defined.

Lemma fold_count_one_rejected_witness :
  exists scores,
    snd (Sample.run Sample.X (Pandas.Series Sample.y) (PyInt 2) None None
                    None false true)
    = Ok scores.
Proof.
  apply (fold_count_one_rejected
           Z Z Z Z Z Sample.fit Sample.predict 0%Z Sample.squared_error
           Sample.shuffle Sample.X Sample.y (PyInt 2) None None None false
           true).
  exists 2%Z. repeat split; simpl; lia.
Defined.

Lemma negative_degree_returns_table_witness :
  build_polynomial_dataframe Sample.table (-1) = Sample.table.
Proof.
  apply (negative_degree_returns_table Sample.table (-1)). lia.
Defined.


(** C1, as stated, fails: with five rows and two folds the frequency used
    when none is given is 4, not [n_folds - 1 = 1]; one notice is logged
    where a frequency of 1 logs two. *)
Lemma default_frequency_is_not_n_folds_minus_1 :
  resolve_update_frequency None (Pandas.Series Sample.y) = 4%Z
  /\ resolve_update_frequency None (Pandas.Series Sample.y) <> (2 - 1)%Z
  /\ notices (st_trace (fst (Sample.run Sample.X (Pandas.Series Sample.y)
                                        (PyInt 2) None None None false
                                        true)))
     = [Concise 1 2 2 3]
  /\ notices (st_trace (fst (Sample.run Sample.X (Pandas.Series Sample.y)
                                        (PyInt 2) (Some (2 - 1)%Z) None None
                                        false true)))
     = [Concise 1 2 2 3; Concise 2 2 3 2].
Proof.
  repeat split. discriminate.
Qed.

(** C5, as stated, fails: with [der = -1] the function returns the table it
    was given. *)
Lemma negative_degree_does_not_fail :
  build_polynomial_dataframe Sample.table (-1) = Sample.table.
Proof. reflexivity. Qed.


(** C9, as stated, fails: a model object handed in with state 7 is left
    with state 12, the state of its last fit. *)
Lemma injected_model_is_changed :
  st_model (fst (Sample.run Sample.X (Pandas.Series Sample.y) (PyInt 2) None
                            (Some 7%Z) None false true))
  = 12%Z
  /\ st_model (fst (Sample.run Sample.X (Pandas.Series Sample.y) (PyInt 2)
                               None (Some 7%Z) None false true))
     <> 7%Z.
Proof.
  split; [reflexivity|discriminate].
Qed.

(** * Further properties of [train_n_test] *)

Section CrossValidatorTrace.

Variables row target pred score M : Type.
Variable fit : M -> list row -> list target -> M.
Variable predict : M -> list row -> list pred.
Variable LinearRegression : M.
Variable mean_squared_error : list target -> list pred -> score.
Variable rng_shuffle : list nat -> list nat.

Let state := state row target M.
Let body := fold_body (score := score) fit predict.
Let run := train_n_test fit predict LinearRegression mean_squared_error
                        rng_shuffle.

Let model_used (model : option M) : M :=
  match model with None => LinearRegression | Some m => m end.

Let metric_used (metric : option (list target -> list pred -> score)) :=
  match metric with None => mean_squared_error | Some f => f end.

(** The calls of the loop, exactly: the study counter [len(scores)] is the
    index of the fold. *)
Lemma loop_calls (k uf : Z) metric (tom concise : bool)
      (folds : list (list nat * list nat)) :
  uf <> 0%Z ->
  forall (scores : list score) (st : state),
    st_trace (fst (for_each folds (body k uf metric tom concise) scores st))
    = st_trace st
      ++ loop_trace concise k uf (List.length scores) (map (roles tom) folds).
Proof.
  intros Huf. induction folds as [|fold rest IH]; intros scores st.
  - simpl. now rewrite app_nil_r.
  - simpl for_each. unfold bind at 1.
    assert (E : exists st' s,
               body k uf metric tom concise fold scores st
               = (st', Ok (scores ++ [s]))
               /\ st_trace st'
                  = st_trace st
                    ++ (if (Z.of_nat (List.length scores) mod uf =? 0)%Z
                        then [Info (notice_for concise k (List.length scores)
                                               (roles tom fold))]
                        else [])
                    ++ [Fit (fst (roles tom fold));
                        Score (snd (roles tom fold))]).
    { unfold body, fold_body, notice_for.
      destruct (roles tom fold) as [train test]; simpl.
      unfold bind at 1. unfold lift, mod_.
      destruct (Z.eqb_spec uf 0) as [|_]; [contradiction|].
      destruct (Z.of_nat (List.length scores) mod uf =? 0)%Z;
        [destruct concise|];
        do 2 eexists; (split; [reflexivity|]); simpl;
        now rewrite <- !app_assoc. }
    destruct E as (st' & s & -> & Etr).
    rewrite IH, Etr, length_app. simpl.
    rewrite Nat.add_1_r, <- !app_assoc. reflexivity.
Qed.

(** The calls of a run that gets into the loop. *)
Lemma run_calls (X : list row) (y : list target) (k : Z)
      (uf : option Z) model metric (tom concise : bool) kf folds :
  Sklearn.KFold_init k true = Ok kf ->
  Sklearn.split rng_shuffle kf X y = Ok folds ->
  st_trace (fst (run X (Pandas.Series y) (PyInt k) uf model metric tom concise))
  = loop_trace concise k (resolve_update_frequency uf (Pandas.Series y)) 0
               (map (roles tom) folds).
Proof.
  intros Hk Hs.
  destruct (KFold_init_inv _ _ _ Hk) as [Hk2 _].
  destruct (split_inv _ _ _ _ _ _ _ Hs) as (_ & Hle & _).
  rewrite (proj2 (KFold_init_inv _ _ _ Hk)) in Hle. simpl in Hle.
  assert (Huf : resolve_update_frequency uf (Pandas.Series y) <> 0%Z)
    by (apply resolve_update_frequency_nonzero; simpl; lia).
  unfold run, train_n_test. unfold bind at 1, lift at 1. rewrite Hk.
  unfold bind at 1, lift at 1. cbn [Pandas.values_ravel]. rewrite Hs.
  exact (loop_calls k _ (metric_used metric) tom concise folds Huf []
                    (mkState X (Pandas.Series y) (model_used model) [])).
Qed.

Lemma notices_app (tr tr' : list event) :
  notices (tr ++ tr') = notices tr ++ notices tr'.
Proof. apply flat_map_app. Qed.

Lemma study_notice_for (concise : bool) (k : Z) (i : nat)
      (r : list nat * list nat) :
  study (notice_for concise k i r) = (Z.of_nat i + 1)%Z.
Proof. now destruct concise. Qed.

Lemma studies_loop_trace (concise : bool) (k uf : Z)
      (sets : list (list nat * list nat)) :
  forall i,
    map study (notices (loop_trace concise k uf i sets))
    = map (fun j => (Z.of_nat j + 1)%Z)
          (filter (fun j => (Z.of_nat j mod uf =? 0)%Z)
                  (seq i (List.length sets))).
Proof.
  induction sets as [|r rest IH]; intros i; simpl; [reflexivity|].
  rewrite notices_app. simpl. rewrite map_app, IH.
  destruct (Z.of_nat i mod uf =? 0)%Z; simpl; [|reflexivity].
  now rewrite study_notice_for.
Qed.

Lemma notices_loop_trace_Forall (P : notice -> Prop) (concise : bool)
      (k uf : Z) (sets : list (list nat * list nat)) :
  (forall i r, In r sets -> P (notice_for concise k i r)) ->
  forall i, Forall P (notices (loop_trace concise k uf i sets)).
Proof.
  induction sets as [|r rest IH]; intros H i; simpl; [constructor|].
  rewrite notices_app. apply Forall_app. split.
  - destruct (Z.of_nat i mod uf =? 0)%Z; simpl; repeat constructor.
    apply H. now left.
  - simpl. apply IH. intros j r' Hr'. apply H. now right.
Qed.

Lemma fold_rows_add_up (A B : Type) (kf : Sklearn.KFold) (X : list A)
      (y : list B) folds :
  Sklearn.split rng_shuffle kf X y = Ok folds ->
  Forall (fun f => List.length (fst f) + List.length (snd f) = List.length X)
         folds.
Proof.
  unfold Sklearn.split.
  destruct (negb _); [discriminate|].
  destruct (_ <? _)%Z; [discriminate|].
  intros [= <-]. apply Forall_map, Forall_forall. intros t _.
  unfold Sklearn.fold_of_test. simpl.
  rewrite Nat.add_comm, filter_length. apply length_seq.
Qed.

Lemma filter_none (A : Type) (f : A -> bool) (l : list A) :
  (forall x, In x l -> f x = false) -> filter f l = [].
Proof.
  induction l as [|a l IH]; intros H; simpl; [reflexivity|].
  rewrite (H a (or_introl eq_refl)). apply IH.
  intros x Hx. apply H. now right.
Qed.

(** X1.  In a run that gets into the loop the notices are those of the
    folds whose zero-based index is a multiple of the frequency in use, in
    order, each with the index plus one as its study number. *)
Theorem notices_follow_frequency
        (X : list row) (y : list target) (k : Z)
        (uf : option Z) model metric (tom concise : bool) kf folds :
  Sklearn.KFold_init k true = Ok kf ->
  Sklearn.split rng_shuffle kf X y = Ok folds ->
  map study
      (notices (st_trace (fst (run X (Pandas.Series y) (PyInt k) uf model metric tom
                                   concise))))
  = map (fun i => (Z.of_nat i + 1)%Z)
        (filter (fun i =>
                   (Z.of_nat i mod resolve_update_frequency uf (Pandas.Series y) =? 0)%Z)
                (seq 0 (List.length folds))).
Proof.
  intros Hk Hs.
  rewrite (run_calls X y k uf model metric tom concise kf folds Hk Hs).
  now rewrite studies_loop_trace, length_map.
Qed.

(** X2.  With the frequency left out (or 0) and a fold count the splitter
    accepts, only the first fold is announced, and the last one as well
    when there are as many folds as rows. *)
Theorem default_frequency_announces_first_fold
        (X : list row) (y : list target) (k : Z)
        (uf : option Z) model metric (tom concise : bool) :
  uf = None \/ uf = Some 0%Z ->
  (2 <= k)%Z ->
  (k <= Z.of_nat (List.length y))%Z ->
  List.length X = List.length y ->
  map study
      (notices (st_trace (fst (run X (Pandas.Series y) (PyInt k) uf model metric tom
                                   concise))))
  = if (k <? Z.of_nat (List.length y))%Z then [1%Z] else [1%Z; k].
Proof.
  intros Huf H2 Hle Hlen.
  destruct (split_ok rng_shuffle _ _ (Sklearn.mkKFold k true) X y Hlen Hle)
    as [folds Hs].
  destruct (split_inv _ _ _ _ _ _ _ Hs) as (_ & _ & Hn). simpl in Hn.
  rewrite (run_calls X y k uf model metric tom concise _ folds
                     (KFold_init_ok k true H2) Hs).
  rewrite studies_loop_trace, length_map, Hn.
  assert (E : resolve_update_frequency uf (Pandas.Series y)
              = (Z.of_nat (List.length y) - 1)%Z)
    by (destruct Huf as [-> | ->]; reflexivity).
  rewrite E. clear E Huf Hs Hn folds.
  set (n := List.length y) in *.
  destruct (Z.to_nat k) as [|k'] eqn:Ek; [lia|].
  simpl seq. cbn [filter]. rewrite Zmod_0_l. cbn [Z.eqb map].
  f_equal. rewrite <- seq_shift, filter_map_swap, map_map.
  destruct (Z.ltb_spec k (Z.of_nat n)) as [Hlt|Hge].
  - rewrite filter_none; [reflexivity|].
    intros i Hi. apply in_seq in Hi.
    apply Z.eqb_neq. rewrite Z.mod_small; lia.
  - assert (k = Z.of_nat n) by lia. subst k.
    destruct k' as [|k'']; [lia|].
    rewrite seq_S, filter_app, map_app.
    rewrite filter_none.
    + cbn [filter]. replace (Z.of_nat (S (0 + k''))) with (Z.of_nat n - 1)%Z
        by lia.
      rewrite Z_mod_same_full, Z.eqb_refl. cbn [map app].
      replace (Z.of_nat (S (0 + k'')) + 1)%Z with (Z.of_nat n) by lia.
      reflexivity.
    + intros i Hi. apply in_seq in Hi.
      apply Z.eqb_neq. rewrite Z.mod_small; lia.
Qed.

(** X3.  Every notice of a run reports two sizes that add up to the number
    of rows, and is of the short form exactly when [concise] is set. *)
Theorem notices_report_all_rows
        (X : list row) (y : list target) (k : Z)
        (uf : option Z) model metric (tom concise : bool) kf folds :
  Sklearn.KFold_init k true = Ok kf ->
  Sklearn.split rng_shuffle kf X y = Ok folds ->
  Forall (fun msg =>
            fst (reported_sizes msg) + snd (reported_sizes msg)
            = List.length X
            /\ (match msg with Concise _ _ _ _ => true | _ => false end)
               = concise)
         (notices (st_trace (fst (run X (Pandas.Series y) (PyInt k) uf model metric tom
                                      concise)))).
Proof.
  intros Hk Hs.
  rewrite (run_calls X y k uf model metric tom concise kf folds Hk Hs).
  apply notices_loop_trace_Forall. intros i r Hr.
  apply in_map_iff in Hr. destruct Hr as (f & <- & Hf).
  pose proof (fold_rows_add_up _ _ kf X y folds Hs) as Hall.
  rewrite Forall_forall in Hall. specialize (Hall f Hf).
  destruct f as [train test]. simpl in Hall.
  destruct tom, concise; simpl; split; reflexivity || lia.
Qed.

Lemma model_calls_loop_trace (concise : bool) (k uf : Z)
      (sets : list (list nat * list nat)) :
  forall i,
    model_calls (loop_trace concise k uf i sets)
    = flat_map (fun r => [Fit (fst r); Score (snd r)]) sets.
Proof.
  induction sets as [|r rest IH]; intros i; simpl; [reflexivity|].
  unfold model_calls in *. rewrite filter_app. simpl. rewrite IH.
  now destruct (Z.of_nat i mod uf =? 0)%Z.
Qed.

(** X4.  In a run that gets into the loop the model is fitted and scored
    in strict alternation, fold by fold: on each fold, first the fit on
    the set in the training role, then the score on the other set. *)
Theorem fit_then_score_per_fold
        (X : list row) (y : list target) (k : Z)
        (uf : option Z) model metric (tom concise : bool) kf folds :
  Sklearn.KFold_init k true = Ok kf ->
  Sklearn.split rng_shuffle kf X y = Ok folds ->
  model_calls (st_trace (fst (run X (Pandas.Series y) (PyInt k) uf model metric tom concise)))
  = flat_map (fun r => [Fit (fst r); Score (snd r)]) (map (roles tom) folds).
Proof.
  intros Hk Hs.
  rewrite (run_calls X y k uf model metric tom concise kf folds Hk Hs).
  apply model_calls_loop_trace.
Qed.

(** A call refused by the splitter's constructor or by the splitter ends
    there, whatever is asked to be logged. *)
Lemma run_refused (X : list row) (y : Pandas.NDFrame target) (k : Z)
      (uf : option Z) model metric (tom concise : bool) :
  (forall e, Sklearn.KFold_init k true = Raise e ->
             run X y (PyInt k) uf model metric tom concise
             = (mkState X y (model_used model) [], Raise e))
  /\ (forall kf e,
        Sklearn.KFold_init k true = Ok kf ->
        Sklearn.split rng_shuffle kf X (Pandas.values_ravel y) = Raise e ->
        run X y (PyInt k) uf model metric tom concise
        = (mkState X y (model_used model) [], Raise e)).
Proof.
  split.
  - intros e Hk. unfold run, train_n_test. unfold bind at 1, lift at 1.
    now rewrite Hk.
  - intros kf e Hk Hs. unfold run, train_n_test.
    unfold bind at 1, lift at 1. rewrite Hk.
    unfold bind at 1, lift at 1. now rewrite Hs.
Qed.

(** X5.  With a [Series] target, what is logged has no bearing on what
    is computed: two calls that differ in [update_frequency] and
    [concise] only end alike, with the same scores or the same
    exception, the same state of the model object and the same fits and
    scores made. *)
Theorem logging_options_do_not_change_results
        (X : list row) (y : list target) (n_folds : object)
        (uf uf' : option Z) model metric (tom concise concise' : bool) :
  let a := run X (Pandas.Series y) n_folds uf model metric tom concise in
  let b := run X (Pandas.Series y) n_folds uf' model metric tom concise' in
  snd a = snd b
  /\ st_model (fst a) = st_model (fst b)
  /\ model_calls (st_trace (fst a)) = model_calls (st_trace (fst b)).
Proof.
  intros a b. subst a b.
  destruct n_folds as [|b0|k|m e|s]; try (repeat split; reflexivity).
  destruct (Sklearn.KFold_init k true) as [kf|e] eqn:Hk.
  - destruct (Sklearn.split rng_shuffle kf X y) as [folds|e] eqn:Hs.
    + rewrite !(run_calls X y k _ model metric tom _ kf folds Hk Hs).
      rewrite !model_calls_loop_trace.
      destruct (run_accepted _ _ _ _ _ fit predict LinearRegression
                  mean_squared_error rng_shuffle X y k uf model metric tom
                  concise kf folds Hk Hs) as (tr & E & _).
      destruct (run_accepted _ _ _ _ _ fit predict LinearRegression
                  mean_squared_error rng_shuffle X y k uf' model metric tom
                  concise' kf folds Hk Hs) as (tr' & E' & _).
      unfold run. rewrite E, E'. repeat split.
    + rewrite (proj2 (run_refused X (Pandas.Series y) k uf model metric tom
                                  concise) kf e Hk Hs).
      rewrite (proj2 (run_refused X (Pandas.Series y) k uf' model metric tom
                                  concise') kf e Hk Hs).
      repeat split.
  - rewrite (proj1 (run_refused X (Pandas.Series y) k uf model metric tom
                                concise) e Hk).
    rewrite (proj1 (run_refused X (Pandas.Series y) k uf' model metric tom
                                concise') e Hk).
    repeat split.
Qed.

Lemma fold_scores_refit
      (metric : list target -> list pred -> score)
      (X : list row) (y : list target) (sets : list (list nat * list nat)) :
  (forall m m' Xt yt, fit m Xt yt = fit m' Xt yt) ->
  forall m m0,
    fold_scores fit predict metric X y sets m
    = map (fun r => metric (take y (snd r))
                           (predict (fit m0 (take X (fst r)) (take y (fst r)))
                                    (take X (snd r))))
          sets.
Proof.
  intros Hfit. induction sets as [|[train test] rest IH]; intros m m0; simpl.
  - reflexivity.
  - rewrite (IH _ m0). now rewrite (Hfit m m0).
Qed.

(** X6.  When fitting replaces whatever the model object held before (the
    result of [fit] does not depend on the earlier state), the score of a
    fold depends on that fold alone: it is the metric on the predictions
    of a model fitted on that fold's training rows only. *)
Theorem refitting_model_scores_folds_independently
        (X : list row) (y : list target) (k : Z)
        (uf : option Z) model metric (tom concise : bool) kf folds :
  (forall m m' Xt yt, fit m Xt yt = fit m' Xt yt) ->
  Sklearn.KFold_init k true = Ok kf ->
  Sklearn.split rng_shuffle kf X y = Ok folds ->
  snd (run X (Pandas.Series y) (PyInt k) uf model metric tom concise)
  = Ok (map (fun r =>
               metric_used metric
                 (take y (snd r))
                 (predict (fit (model_used model) (take X (fst r))
                               (take y (fst r)))
                          (take X (snd r))))
            (map (roles tom) folds)).
Proof.
  intros Hfit Hk Hs.
  destruct (run_accepted _ _ _ _ _ fit predict LinearRegression mean_squared_error
              rng_shuffle X y k uf model metric tom concise kf folds Hk Hs)
    as (tr & E & _).
  unfold run. rewrite E. simpl.
  now rewrite (fold_scores_refit _ X y _ Hfit _ (model_used model)).
Qed.

(** X7.  A fold count of 2 or more that exceeds the number of rows is
    refused by the splitter with [ValueError], before any notice, fit or
    score. *)
Theorem more_folds_than_rows_rejected
        (X : list row) (y : list target) (k : Z)
        (uf : option Z) model metric (tom concise : bool) :
  (2 <= k)%Z ->
  List.length X = List.length y ->
  (Z.of_nat (List.length y) < k)%Z ->
  run X (Pandas.Series y) (PyInt k) uf model metric tom concise
  = (mkState X (Pandas.Series y) (model_used model) [],
     Raise (ValueError (NSplitsExceedsSamples k (List.length X)))).
Proof.
  intros H2 Hlen Hlt.
  unfold run, train_n_test. unfold bind at 1, lift at 1.
  rewrite (KFold_init_ok k true H2).
  unfold bind at 1, lift at 1. unfold Sklearn.split.
  cbn [Pandas.values_ravel]. rewrite Hlen, Nat.eqb_refl. simpl.
  destruct (Z.ltb_spec (Z.of_nat (List.length y)) k); [reflexivity|lia].
Qed.

(** X8.  With a fold count of 2 or more, features and target of different
    lengths are refused by the splitter with [ValueError], before any
    notice, fit or score, whatever the fold count is otherwise. *)
Theorem misaligned_data_rejected
        (X : list row) (y : list target) (k : Z)
        (uf : option Z) model metric (tom concise : bool) :
  (2 <= k)%Z ->
  List.length X <> List.length y ->
  run X (Pandas.Series y) (PyInt k) uf model metric tom concise
  = (mkState X (Pandas.Series y) (model_used model) [],
     Raise (ValueError (InconsistentLengths (List.length X)
                                            (List.length y)))).
Proof.
  intros H2 Hlen.
  unfold run, train_n_test. unfold bind at 1, lift at 1.
  rewrite (KFold_init_ok k true H2).
  unfold bind at 1, lift at 1. unfold Sklearn.split.
  cbn [Pandas.values_ravel].
  destruct (Nat.eqb_spec (List.length X) (List.length y));
    [contradiction|reflexivity].
Qed.

(** X9.  Every index array of a fold selects exactly as many feature rows
    and as many targets as it has indices: no index is out of range, and
    [fit], [predict] and the metric are handed row-aligned data. *)
Theorem folds_select_aligned_rows
        (X : list row) (y : list target) (kf : Sklearn.KFold) folds :
  Sklearn.split rng_shuffle kf X y = Ok folds ->
  Forall (fun f =>
            List.length (take X (fst f)) = List.length (fst f)
            /\ List.length (take y (fst f)) = List.length (fst f)
            /\ List.length (take X (snd f)) = List.length (snd f)
            /\ List.length (take y (snd f)) = List.length (snd f))
         folds.
Proof.
  intros Hs.
  pose proof (split_in_range rng_shuffle _ _ kf X y folds Hs) as Hr.
  destruct (split_inv _ _ _ _ _ _ _ Hs) as (Hlen & _).
  eapply Forall_impl; [|exact Hr]. intros f [Htr Hte].
  repeat split; apply take_length; rewrite <- ?Hlen; assumption.
Qed.

End CrossValidatorTrace.
(** ** The folds as a partition of the rows *)

Lemma fold_sizes_sum_aux (q r m : nat) :
  list_sum (map (fun i => q + (if i <? r then 1 else 0)) (seq 0 m))
  = m * q + Nat.min m r.
Proof.
  induction m as [|m IH]; [reflexivity|].
  rewrite seq_S, map_app, list_sum_app, IH.
  cbn [map list_sum fold_right]. change (0 + m) with m.
  rewrite Nat.mul_succ_l.
  destruct (Nat.min_spec m r) as [[? ->]|[? ->]];
    destruct (Nat.min_spec (S m) r) as [[? ->]|[? ->]];
    destruct (Nat.ltb_spec m r); lia.
Qed.

Lemma fold_sizes_sum (n_samples n_splits : nat) :
  0 < n_splits ->
  list_sum (Sklearn.fold_sizes n_samples n_splits) = n_samples.
Proof.
  intros H. unfold Sklearn.fold_sizes. rewrite fold_sizes_sum_aux.
  pose proof (Nat.mod_upper_bound n_samples n_splits ltac:(lia)).
  pose proof (Nat.div_mod_eq n_samples n_splits). lia.
Qed.

Lemma firstn_add (A : Type) (s t : nat) (l : list A) :
  firstn (s + t) l = firstn s l ++ firstn t (skipn s l).
Proof.
  revert l. induction s as [|s IH]; intros [|a l]; simpl;
    rewrite ?firstn_nil; try reflexivity.
  now rewrite IH.
Qed.

Lemma iter_slices_concat (indices sizes : list nat) :
  forall current,
    List.concat (Sklearn.iter_slices indices sizes current)
    = firstn (list_sum sizes) (skipn current indices).
Proof.
  induction sizes as [|sz rest IH]; intros current; simpl; [reflexivity|].
  rewrite IH, firstn_add, skipn_skipn. unfold slice.
  replace (current + sz - current) with sz by lia.
  now rewrite (Nat.add_comm sz current).
Qed.

Lemma iter_slices_lengths (indices sizes : list nat) :
  forall current,
    current + list_sum sizes <= List.length indices ->
    map (@List.length nat) (Sklearn.iter_slices indices sizes current) = sizes.
Proof.
  induction sizes as [|sz rest IH]; intros current H; simpl in *;
    [reflexivity|].
  rewrite IH by lia. unfold slice.
  rewrite length_firstn, length_skipn. f_equal. lia.
Qed.

Lemma slice_incl (A : Type) (l : list A) (start stop : nat) (x : A) :
  In x (slice l start stop) -> In x l.
Proof.
  unfold slice. intros H.
  rewrite <- (firstn_skipn start l). apply in_or_app. right.
  rewrite <- (firstn_skipn (stop - start) (skipn start l)).
  apply in_or_app. now left.
Qed.

Lemma slice_NoDup (A : Type) (l : list A) (start stop : nat) :
  NoDup l -> NoDup (slice l start stop).
Proof.
  unfold slice. intros H.
  rewrite <- (firstn_skipn start l) in H. apply NoDup_app_remove_l in H.
  rewrite <- (firstn_skipn (stop - start) (skipn start l)) in H.
  now apply NoDup_app_remove_r in H.
Qed.

Lemma iter_slices_Forall (P : list nat -> Prop) (indices sizes : list nat) :
  (forall start stop, P (slice indices start stop)) ->
  forall current, Forall P (Sklearn.iter_slices indices sizes current).
Proof.
  intros H. induction sizes as [|sz rest IH]; intros current; simpl;
    constructor; auto.
Qed.

(** The test indices of a fold are those of its slice, in ascending
    order. *)
Lemma test_index_permutation (n_samples : nat) (test_index : list nat) :
  NoDup test_index ->
  (forall i, In i test_index -> i < n_samples) ->
  Permutation (snd (Sklearn.fold_of_test n_samples test_index)) test_index.
Proof.
  intros Hnd Hlt. unfold Sklearn.fold_of_test. simpl.
  apply NoDup_Permutation; [apply NoDup_filter, seq_NoDup|assumption|].
  intros i. rewrite filter_In, in_seq, existsb_exists. split.
  - intros (_ & j & Hj & E). apply Nat.eqb_eq in E. now subst.
  - intros Hi. split; [specialize (Hlt i Hi); lia|].
    exists i. split; [assumption|apply Nat.eqb_refl].
Qed.

Lemma concat_map_permutation (A : Type) (f : list A -> list A)
      (ls : list (list A)) :
  Forall (fun l => Permutation (f l) l) ls ->
  Permutation (List.concat (map f ls)) (List.concat ls).
Proof.
  induction 1 as [|l ls Hl _ IH]; simpl; [constructor|].
  now apply Permutation_app.
Qed.

Section FoldPartition.

Variable rng_shuffle : list nat -> list nat.

(** The generator permutes what it is given. *)
Hypothesis rng_shuffle_permutes : forall l, Permutation l (rng_shuffle l).

Lemma test_slices_facts (k : Z) (n_samples : nat) :
  (2 <= k)%Z ->
  let slices :=
    Sklearn.iter_test_indices rng_shuffle (Sklearn.mkKFold k true) n_samples in
  Permutation (List.concat slices) (seq 0 n_samples)
  /\ Forall (fun t => Permutation
                        (snd (Sklearn.fold_of_test n_samples t)) t) slices
  /\ map (@List.length nat) slices
     = Sklearn.fold_sizes n_samples (Z.to_nat k).
Proof.
  intros H2 slices. subst slices. unfold Sklearn.iter_test_indices. simpl.
  set (indices := rng_shuffle (seq 0 n_samples)).
  assert (Hp : Permutation (seq 0 n_samples) indices)
    by apply rng_shuffle_permutes.
  assert (Hlen : List.length indices = n_samples)
    by (rewrite <- (Permutation_length Hp); apply length_seq).
  assert (Hsum : list_sum (Sklearn.fold_sizes n_samples (Z.to_nat k))
                 = n_samples) by (apply fold_sizes_sum; lia).
  repeat split.
  - rewrite iter_slices_concat, Hsum. simpl.
    rewrite <- Hlen at 1. rewrite firstn_all. now symmetry.
  - apply iter_slices_Forall. intros start stop.
    apply test_index_permutation.
    + apply slice_NoDup. eapply Permutation_NoDup; [exact Hp|].
      apply seq_NoDup.
    + intros i Hi. apply slice_incl in Hi.
      apply (Permutation_in _ (Permutation_sym Hp)) in Hi.
      apply in_seq in Hi. lia.
  - apply iter_slices_lengths. lia.
Qed.

End FoldPartition.

Lemma split_accepted (rng_shuffle : list nat -> list nat) (A B : Type)
      (X : list A) (y : list B) (k : Z) :
  List.length X = List.length y ->
  (k <= Z.of_nat (List.length y))%Z ->
  Sklearn.split rng_shuffle (Sklearn.mkKFold k true) X y
  = Ok (map (Sklearn.fold_of_test (List.length X))
            (Sklearn.iter_test_indices rng_shuffle (Sklearn.mkKFold k true)
                                       (List.length X))).
Proof.
  intros Hlen Hle. unfold Sklearn.split.
  rewrite Hlen, Nat.eqb_refl. simpl.
  destruct (Z.ltb_spec (Z.of_nat (List.length y)) k); [lia|reflexivity].
Qed.

Lemma fold_sizes_bounds (n_samples n_splits : nat) :
  Forall (fun s => n_samples / n_splits <= s <= n_samples / n_splits + 1)
         (Sklearn.fold_sizes n_samples n_splits).
Proof.
  unfold Sklearn.fold_sizes. apply Forall_map, Forall_forall.
  intros i _. destruct (i <? n_samples mod n_splits); lia.
Qed.

Section CrossValidatorPartition.

Variables row target pred score M : Type.
Variable fit : M -> list row -> list target -> M.
Variable predict : M -> list row -> list pred.
Variable LinearRegression : M.
Variable mean_squared_error : list target -> list pred -> score.
Variable rng_shuffle : list nat -> list nat.

Hypothesis rng_shuffle_permutes : forall l, Permutation l (rng_shuffle l).

Let run := train_n_test fit predict LinearRegression mean_squared_error
                        rng_shuffle.

(** X10.  When the generator's shuffle is a permutation, a run without the
    swap scores every row in exactly one fold, and a run with the swap fits
    every row in exactly one fold: the index sets in the test role, put
    end to end, are the row indices, each once. *)
Theorem each_row_in_one_test_set
        (X : list row) (y : list target) (k : Z)
        (uf : option Z) model metric (concise : bool) :
  (2 <= k)%Z ->
  (k <= Z.of_nat (List.length y))%Z ->
  List.length X = List.length y ->
  Permutation
    (List.concat (scored_rows
                    (st_trace (fst (run X (Pandas.Series y) (PyInt k) uf model metric false
                                        concise)))))
    (seq 0 (List.length X))
  /\ Permutation
       (List.concat (fitted_rows
                       (st_trace (fst (run X (Pandas.Series y) (PyInt k) uf model metric true
                                           concise)))))
       (seq 0 (List.length X)).
Proof.
  intros H2 Hle Hlen.
  pose proof (split_accepted rng_shuffle _ _ X y k Hlen Hle) as Hs.
  destruct (test_slices_facts rng_shuffle rng_shuffle_permutes k
                              (List.length X) H2) as (Hc & Ht & _).
  assert (Hp : Permutation
                 (List.concat
                    (map snd
                         (map (Sklearn.fold_of_test (List.length X))
                              (Sklearn.iter_test_indices
                                 rng_shuffle (Sklearn.mkKFold k true)
                                 (List.length X)))))
                 (seq 0 (List.length X))).
  { rewrite map_map.
    etransitivity; [|exact Hc].
    apply (concat_map_permutation _
             (fun t => snd (Sklearn.fold_of_test (List.length X) t))).
    exact Ht. }
  split.
  - destruct (run_accepted _ _ _ _ _ fit predict LinearRegression
                mean_squared_error rng_shuffle X y k uf model metric false
                concise _ _ (KFold_init_ok k true H2) Hs) as (tr & E & _ & S).
    unfold run. rewrite E. simpl. rewrite S, map_map.
    rewrite (map_ext _ snd) by (intros f; now rewrite roles_plain).
    exact Hp.
  - destruct (run_accepted _ _ _ _ _ fit predict LinearRegression
                mean_squared_error rng_shuffle X y k uf model metric true
                concise _ _ (KFold_init_ok k true H2) Hs) as (tr & E & F & _).
    unfold run. rewrite E. simpl. rewrite F, map_map.
    rewrite (map_ext _ snd) by (intros f; now rewrite roles_swapped).
    exact Hp.
Qed.

(** X11.  When the generator's shuffle is a permutation, the folds are
    balanced: in a run without the swap the sets scored have
    [n // k + 1] rows for the first [n % k] folds and [n // k] rows for
    the others, so they differ in size by one at most, and the sets fitted
    on have the remaining rows. *)
Theorem folds_are_balanced
        (X : list row) (y : list target) (k : Z)
        (uf : option Z) model metric (concise : bool) :
  (2 <= k)%Z ->
  (k <= Z.of_nat (List.length y))%Z ->
  List.length X = List.length y ->
  let tr :=
    st_trace (fst (run X (Pandas.Series y) (PyInt k) uf model metric false concise)) in
  let n := List.length X in
  map (@List.length nat) (scored_rows tr) = Sklearn.fold_sizes n (Z.to_nat k)
  /\ map (@List.length nat) (fitted_rows tr)
     = map (fun s => n - s) (Sklearn.fold_sizes n (Z.to_nat k))
  /\ Forall (fun s => n / Z.to_nat k <= s <= n / Z.to_nat k + 1)
            (map (@List.length nat) (scored_rows tr)).
Proof.
  intros H2 Hle Hlen tr n. subst tr n.
  pose proof (split_accepted rng_shuffle _ _ X y k Hlen Hle) as Hs.
  destruct (test_slices_facts rng_shuffle rng_shuffle_permutes k
                              (List.length X) H2) as (_ & Ht & Hsz).
  destruct (run_accepted _ _ _ _ _ fit predict LinearRegression
              mean_squared_error rng_shuffle X y k uf model metric false
              concise _ _ (KFold_init_ok k true H2) Hs) as (tr & E & F & S).
  pose proof (fold_rows_add_up rng_shuffle _ _ _ X y _ Hs) as Hadd.
  unfold run. rewrite E. simpl. rewrite F, S.
  set (slices := Sklearn.iter_test_indices rng_shuffle
                   (Sklearn.mkKFold k true) (List.length X)) in *.
  assert (Escored :
            map (@List.length nat)
                (map snd
                     (map (roles false)
                          (map (Sklearn.fold_of_test (List.length X)) slices)))
            = Sklearn.fold_sizes (List.length X) (Z.to_nat k)).
  { rewrite <- Hsz, !map_map. apply map_ext_Forall.
    eapply Forall_impl; [|exact Ht]. intros t Hp.
    rewrite roles_plain. now apply Permutation_length. }
  split; [exact Escored|]. split.
  - rewrite <- Escored, !map_map. apply map_ext_Forall.
    rewrite Forall_map in Hadd.
    eapply Forall_impl; [|exact Hadd]. intros t Hp.
    rewrite roles_plain. cbv beta in Hp. lia.
  - rewrite Escored. apply fold_sizes_bounds.
Qed.

End CrossValidatorPartition.

(** * Further properties of [build_polynomial_dataframe] *)

Section PolynomialExpanderTerms.

Context {cell : Type} {dtype : Pandas.Dtype cell}.

Lemma fold_left_flat_map (A B C : Type) (f : A -> C -> A) (g : B -> list C)
      (l : list B) :
  forall a,
    fold_left f (flat_map g l) a
    = fold_left (fun acc b => fold_left f (g b) acc) l a.
Proof.
  induction l as [|b l IH]; intros a; simpl; [reflexivity|].
  now rewrite fold_left_app, IH.
Qed.

(** The two loops as one loop over the terms. *)
Lemma build_polynomial_dataframe_terms (data : Pandas.DataFrame cell) (der : Z) :
  build_polynomial_dataframe data der
  = fold_left (add_term data) (terms data der) data.
Proof.
  unfold build_polynomial_dataframe, terms.
  rewrite copy_id, fold_left_flat_map. reflexivity.
Qed.

Lemma combinations_with_replacement_shape (A : Type) (r : nat) :
  forall (pool tpl : list A),
    In tpl (Itertools.combinations_with_replacement r pool) ->
    List.length tpl = r /\ incl tpl pool.
Proof.
  induction r as [|r IH]; intros pool tpl; simpl.
  - intros [<-|[]]. split; [reflexivity|intros x []].
  - induction pool as [|x rest IHp]; [intros []|].
    intros H. apply in_app_or in H. destruct H as [H|H].
    + apply in_map_iff in H. destruct H as (t & <- & Ht).
      destruct (IH _ _ Ht) as [Hl Hi]. split; [simpl; now f_equal|].
      intros a [<-|Ha]; [now left|now apply Hi].
    + destruct (IHp H) as [Hl Hi]. split; [assumption|].
      now apply incl_tl.
Qed.

Lemma in_range (lo hi o : Z) :
  In o (Py.range lo hi) <-> (lo <= o < hi)%Z.
Proof.
  unfold Py.range. rewrite in_map_iff. split.
  - intros (i & <- & Hi). apply in_seq in Hi. lia.
  - intros H. exists (Z.to_nat (o - lo)). split; [lia|].
    apply in_seq. lia.
Qed.

(** A term is a tuple of between 1 and [der] labels of the table. *)
Lemma terms_shape (data : Pandas.DataFrame cell) (der : Z) (tpl : list string) :
  In tpl (terms data der) ->
  (1 <= Z.of_nat (List.length tpl) <= der)%Z
  /\ incl tpl (Pandas.columns data).
Proof.
  unfold terms. rewrite in_flat_map. intros (o & Ho & Ht).
  apply in_range in Ho.
  destruct (combinations_with_replacement_shape _ _ _ _ Ht) as [Hl Hi].
  split; [lia|assumption].
Qed.

Lemma columns_setitem (df : Pandas.DataFrame cell) (name : string) (v : list cell) :
  Pandas.columns (Pandas.setitem df name v)
  = if existsb (String.eqb name) (Pandas.columns df) then Pandas.columns df
    else Pandas.columns df ++ [name].
Proof. apply columns_set_column. Qed.

Lemma column_set_everywhere (cs : list (string * list cell))
      (name name' : string) (v : list cell) :
  option_map snd
    (find (fun c => String.eqb (fst c) name')
          (map (fun c => if String.eqb (fst c) name then (fst c, v) else c)
               cs))
  = if String.eqb name name'
    then (if existsb (fun c => String.eqb (fst c) name) cs
          then Some v else None)
    else option_map snd (find (fun c => String.eqb (fst c) name') cs).
Proof.
  induction cs as [|[n old] rest IH]; simpl.
  - now destruct (String.eqb name name').
  - destruct (String.eqb_spec n name) as [->|Hn]; simpl.
    + destruct (String.eqb name name') eqn:E; simpl; [reflexivity|exact IH].
    + destruct (String.eqb_spec n name') as [->|Hn']; [|exact IH].
      simpl. destruct (String.eqb_spec name name'); [congruence|reflexivity].
Qed.

Lemma column_appended (cs : list (string * list cell))
      (name name' : string) (v : list cell) :
  existsb (fun c => String.eqb (fst c) name) cs = false ->
  option_map snd
    (find (fun c => String.eqb (fst c) name') (cs ++ [(name, v)]))
  = if String.eqb name name' then Some v
    else option_map snd (find (fun c => String.eqb (fst c) name') cs).
Proof.
  induction cs as [|[n old] rest IH]; simpl; intros H.
  - now destruct (String.eqb name name').
  - apply orb_false_iff in H. destruct H as [Hn H].
    destruct (String.eqb_spec n name') as [->|Hn'].
    + now rewrite String.eqb_sym, Hn.
    + now apply IH.
Qed.

Lemma column_setitem (df : Pandas.DataFrame cell) (name name' : string)
      (v : list cell) :
  Pandas.column (Pandas.setitem df name v) name'
  = if String.eqb name name' then Some v else Pandas.column df name'.
Proof.
  unfold Pandas.column, Pandas.setitem, Pandas.set_column. simpl.
  destruct (existsb _ _) eqn:E.
  - now rewrite column_set_everywhere, E.
  - now apply column_appended.
Qed.

Lemma column_fold_add_term_other (data : Pandas.DataFrame cell)
      (l : list (list string)) (name : string) :
  ~ In name (map label l) ->
  forall poly,
    Pandas.column (fold_left (add_term data) l poly) name
    = Pandas.column poly name.
Proof.
  induction l as [|t l IH]; intros Hn poly; simpl; [reflexivity|].
  rewrite IH by (intros H; apply Hn; now right).
  unfold add_term. rewrite column_setitem.
  destruct (String.eqb_spec (String.concat "_x_" t) name) as [E|_];
    [|reflexivity].
  exfalso. apply Hn. now left.
Qed.

Lemma column_fold_add_term (data : Pandas.DataFrame cell)
      (l : list (list string)) :
  NoDup (map label l) ->
  forall poly tpl,
    In tpl l ->
    Pandas.column (fold_left (add_term data) l poly) (label tpl)
    = Some (Pandas.prod_axis1 (Pandas.getitem data tpl)).
Proof.
  induction l as [|t l IH]; intros Hnd poly tpl Hin; [destruct Hin|].
  simpl in Hnd. inversion Hnd as [|? ? Hnot Hnd']; subst.
  simpl. destruct Hin as [->|Hin].
  - rewrite column_fold_add_term_other by assumption.
    unfold add_term. rewrite column_setitem.
    unfold label. now rewrite String.eqb_refl.
  - now apply IH.
Qed.

(** X12.  When no two terms of the expansion share a label, every term has
    its column in the result: the column labelled with the joined labels
    of the tuple holds the row-wise product of the tuple's columns of the
    table given. *)
Theorem generated_columns_hold_products
        (data : Pandas.DataFrame cell) (der : Z) (tpl : list string) :
  NoDup (map label (terms data der)) ->
  In tpl (terms data der) ->
  Pandas.column (build_polynomial_dataframe data der) (label tpl)
  = Some (Pandas.prod_axis1 (Pandas.getitem data tpl)).
Proof.
  intros Hnd Hin. rewrite build_polynomial_dataframe_terms.
  now apply column_fold_add_term.
Qed.

Lemma columns_fold_add_term (data : Pandas.DataFrame cell)
      (l : list (list string)) :
  forall poly,
  exists extra,
    Pandas.columns (fold_left (add_term data) l poly)
    = Pandas.columns poly ++ extra
    /\ Forall (fun c => exists tpl, In tpl l /\ c = label tpl) extra.
Proof.
  induction l as [|t l IH]; intros poly; simpl.
  - exists []. now rewrite app_nil_r.
  - destruct (IH (add_term data poly t)) as (extra & E & Hall).
    assert (Hall' : Forall (fun c => exists tpl,
                                (t = tpl \/ In tpl l) /\ c = label tpl)
                           extra).
    { eapply Forall_impl; [|exact Hall].
      intros c (tpl & Hin & Hc). exists tpl. split; [now right|assumption]. }
    change (Pandas.columns (add_term data poly t))
      with (Pandas.columns
              (Pandas.setitem poly (label t)
                              (Pandas.prod_axis1 (Pandas.getitem data t))))
      in E.
    rewrite columns_setitem in E.
    destruct (existsb _ _).
    + now exists extra.
    + exists (label t :: extra). rewrite E, <- app_assoc. split;
        [reflexivity|].
      constructor; [|assumption]. exists t. split; [now left|reflexivity].
Qed.

(** X13.  The labels of the table come first in the result, in their
    order; every label after them is the joined labels of a tuple of at
    least one and at most [der] labels of the table.  Nothing else is
    added. *)
Theorem labels_of_expansion (data : Pandas.DataFrame cell) (der : Z) :
  exists extra,
    Pandas.columns (build_polynomial_dataframe data der)
    = Pandas.columns data ++ extra
    /\ Forall (fun c =>
                 exists tpl,
                   c = label tpl
                   /\ (1 <= Z.of_nat (List.length tpl) <= der)%Z
                   /\ incl tpl (Pandas.columns data))
              extra.
Proof.
  rewrite build_polynomial_dataframe_terms.
  destruct (columns_fold_add_term data (terms data der) data)
    as (extra & E & Hall).
  exists extra. split; [assumption|].
  eapply Forall_impl; [|exact Hall].
  intros c (tpl & Hin & Hc). exists tpl.
  destruct (terms_shape data der tpl Hin). now repeat split.
Qed.

Lemma flat_map_none (A B : Type) (g : A -> list B) (l : list A) :
  (forall x, In x l -> g x = []) -> flat_map g l = [].
Proof.
  induction l as [|a l IH]; intros H; simpl; [reflexivity|].
  rewrite (H a (or_introl eq_refl)). apply IH.
  intros x Hx. apply H. now right.
Qed.

(** X15.  A table without columns comes back as it is, whatever the
    order asked for. *)
Theorem no_columns_no_terms (data : Pandas.DataFrame cell) (der : Z) :
  Pandas.columns data = [] ->
  build_polynomial_dataframe data der = data.
Proof.
  intros H. rewrite build_polynomial_dataframe_terms.
  replace (terms data der) with (@nil (list string)); [reflexivity|].
  symmetry. unfold terms. rewrite H.
  apply flat_map_none. intros o Ho. apply in_range in Ho.
  destruct (Z.to_nat o) eqn:E; [lia|reflexivity].
Qed.


End PolynomialExpanderTerms.

(** ** Shape and values of the expansion *)

Section PolynomialExpanderValues.

Context {cell : Type} {dtype : Pandas.Dtype cell}.

Let filled_column (c : string * list cell) : list cell :=
  map Pandas.nan_to_one (snd c).

Lemma zip_with_length (a b : list cell) :
  List.length (Pandas.zip_with Pandas.mul a b)
  = Nat.min (List.length a) (List.length b).
Proof.
  revert b. induction a as [|x a IH]; intros [|z b]; simpl; try reflexivity.
  now rewrite IH.
Qed.

Lemma fold_zip_length (n : nat) (cs : list (string * list cell)) :
  Forall (fun c => List.length (snd c) = n) cs ->
  forall acc,
    List.length acc = n ->
    List.length
      (fold_left (fun acc c => Pandas.zip_with Pandas.mul acc
                                               (filled_column c))
                 cs acc) = n.
Proof.
  induction 1 as [|c cs Hc _ IH]; intros acc Hacc; simpl; [assumption|].
  apply IH. unfold filled_column. rewrite zip_with_length, length_map. lia.
Qed.

Lemma getitem_well_formed (df : Pandas.DataFrame cell)
      (names : list string) :
  Pandas.well_formed df -> Pandas.well_formed (Pandas.getitem df names).
Proof.
  unfold Pandas.well_formed, Pandas.getitem. simpl. intros H.
  apply Forall_forall. intros c Hc.
  apply in_flat_map in Hc. destruct Hc as (nm & _ & Hc).
  apply filter_In in Hc. rewrite Forall_forall in H. now apply H.
Qed.

Lemma prod_axis1_length (df : Pandas.DataFrame cell) :
  Pandas.well_formed df ->
  List.length (Pandas.prod_axis1 df) = Pandas.nrows df.
Proof.
  unfold Pandas.well_formed, Pandas.prod_axis1. intros H.
  destruct (Pandas.cols df) as [|c rest]; [apply repeat_length|].
  inversion H as [|? ? Hc Hrest]; subst.
  apply (fold_zip_length (Pandas.nrows df) rest Hrest).
  now rewrite length_map.
Qed.

Lemma set_column_Forall (P : string * list cell -> Prop)
      (cs : list (string * list cell)) (name : string) (v : list cell) :
  Forall P cs ->
  (forall n, P (n, v)) ->
  Forall P (Pandas.set_column cs name v).
Proof.
  intros H Hv. unfold Pandas.set_column.
  destruct (existsb _ _).
  - apply Forall_map. eapply Forall_impl; [|exact H].
    intros c Hc. now destruct (String.eqb (fst c) name).
  - apply Forall_app. split; [assumption|]. repeat constructor. apply Hv.
Qed.

(** X16.  The expansion keeps the shape of a well-formed table: the same
    number of rows, and every column, generated ones included, with one
    value per row. *)
Theorem expansion_keeps_shape (data : Pandas.DataFrame cell) (der : Z) :
  Pandas.well_formed data ->
  Pandas.nrows (build_polynomial_dataframe data der) = Pandas.nrows data
  /\ Pandas.well_formed (build_polynomial_dataframe data der).
Proof.
  intros Hwf. rewrite build_polynomial_dataframe_terms.
  generalize (terms data der). intros l.
  assert (H : forall poly,
             Pandas.nrows poly = Pandas.nrows data ->
             Pandas.well_formed poly ->
             Pandas.nrows (fold_left (add_term data) l poly)
             = Pandas.nrows data
             /\ Pandas.well_formed (fold_left (add_term data) l poly)).
  { induction l as [|t l IH]; intros poly Hn Hp; simpl; [now split|].
    apply IH; [exact Hn|].
    unfold add_term, Pandas.well_formed, Pandas.setitem. simpl.
    apply set_column_Forall; [exact Hp|].
    intros n. simpl. rewrite Hn.
    apply (prod_axis1_length (Pandas.getitem data t)).
    now apply getitem_well_formed. }
  now apply H.
Qed.

Lemma filter_label_unique (cs : list (string * list cell)) (c : string)
      (v : list cell) :
  NoDup (map fst cs) ->
  In (c, v) cs ->
  filter (fun x => String.eqb (fst x) c) cs = [(c, v)].
Proof.
  induction cs as [|[n old] rest IH]; intros Hnd Hin; [destruct Hin|].
  simpl in Hnd. inversion Hnd as [|? ? Hnot Hnd']; subst. simpl.
  destruct Hin as [[= -> ->]|Hin].
  - rewrite String.eqb_refl. f_equal.
    apply filter_none. intros [n' v'] Hx. simpl.
    apply String.eqb_neq. intros ->. apply Hnot.
    apply in_map_iff. now exists (c, v').
  - destruct (String.eqb_spec n c) as [->|_].
    + exfalso. apply Hnot. apply in_map_iff. now exists (c, v).
    + now apply IH.
Qed.

Lemma column_of_member (df : Pandas.DataFrame cell) (c : string)
      (v : list cell) :
  NoDup (Pandas.columns df) ->
  In (c, v) (Pandas.cols df) ->
  Pandas.column df c = Some v.
Proof.
  unfold Pandas.columns, Pandas.column.
  induction (Pandas.cols df) as [|[n old] rest IH]; intros Hnd Hin;
    [destruct Hin|].
  simpl in Hnd. inversion Hnd as [|? ? Hnot Hnd']; subst. simpl.
  destruct Hin as [[= -> ->]|Hin].
  - now rewrite String.eqb_refl.
  - destruct (String.eqb_spec n c) as [->|_].
    + exfalso. apply Hnot. apply in_map_iff. now exists (c, v).
    + now apply IH.
Qed.

Lemma label_has_column (df : Pandas.DataFrame cell) (c : string) :
  In c (Pandas.columns df) -> exists v, In (c, v) (Pandas.cols df).
Proof.
  unfold Pandas.columns. intros H. apply in_map_iff in H.
  destruct H as ([n v] & <- & H). now exists v.
Qed.

End PolynomialExpanderValues.

Section PolynomialExpanderCells.

Context {cell : Type} {dtype : Pandas.Dtype cell}.

Lemma nth_zip_with (a b : list cell) (d : cell) :
  forall i,
    i < List.length a ->
    i < List.length b ->
    nth i (Pandas.zip_with Pandas.mul a b) d
    = Pandas.mul (nth i a d) (nth i b d).
Proof.
  revert b. induction a as [|x a IH]; intros [|z b] [|i] Ha Hb; simpl in *;
    try lia; [reflexivity|].
  apply IH; lia.
Qed.

Lemma nth_map_in (f : cell -> cell) (l : list cell) (d : cell) (i : nat) :
  i < List.length l -> nth i (map f l) d = f (nth i l d).
Proof.
  intros H. rewrite (nth_indep (map f l) d (f d)) by now rewrite length_map.
  apply map_nth.
Qed.

Lemma map_nth_seq (l : list cell) (d : cell) :
  l = map (fun i => nth i l d) (seq 0 (List.length l)).
Proof.
  induction l as [|a l IH]; simpl; [reflexivity|].
  f_equal. rewrite <- seq_shift, map_map. exact IH.
Qed.

Lemma repeat_map_seq (x : cell) (n : nat) :
  forall start, repeat x n = map (fun _ => x) (seq start n).
Proof.
  induction n as [|n IH]; intros start; simpl; [reflexivity|].
  now rewrite <- IH.
Qed.

Lemma fold_zip_rows (n : nat) (d : cell) (cs : list (string * list cell)) :
  Forall (fun c => List.length (snd c) = n) cs ->
  forall acc,
    List.length acc = n ->
    fold_left (fun acc c => Pandas.zip_with Pandas.mul acc
                                            (map Pandas.nan_to_one (snd c)))
              cs acc
    = map (fun i =>
             fold_left Pandas.mul
                       (map (fun c => Pandas.nan_to_one (nth i (snd c) d)) cs)
                       (nth i acc d))
          (seq 0 n).
Proof.
  induction 1 as [|c cs Hc _ IH]; intros acc Hacc; simpl.
  - subst n. apply map_nth_seq.
  - rewrite IH by (rewrite zip_with_length, length_map; lia).
    apply map_ext_in. intros i Hi. apply in_seq in Hi.
    rewrite nth_zip_with by (rewrite ?length_map; lia).
    rewrite nth_map_in by lia. reflexivity.
Qed.

Lemma getitem_cols (data : Pandas.DataFrame cell) (tpl : list string) :
  NoDup (Pandas.columns data) ->
  incl tpl (Pandas.columns data) ->
  Pandas.cols (Pandas.getitem data tpl)
  = map (fun c => (c, match Pandas.column data c with
                      | Some v => v
                      | None => []
                      end)) tpl.
Proof.
  intros Hnd Hincl. unfold Pandas.getitem. simpl.
  induction tpl as [|c tpl IH]; simpl; [reflexivity|].
  destruct (label_has_column data c (Hincl c (or_introl eq_refl))) as [v Hv].
  rewrite (filter_label_unique _ c v Hnd Hv). simpl.
  rewrite IH by (intros x Hx; apply Hincl; now right).
  now rewrite (column_of_member data c v Hnd Hv).
Qed.

(** The product over the columns named by a tuple, row by row. *)
Lemma prod_axis1_rows (data : Pandas.DataFrame cell) (tpl : list string) :
  Pandas.well_formed data ->
  NoDup (Pandas.columns data) ->
  incl tpl (Pandas.columns data) ->
  Pandas.prod_axis1 (Pandas.getitem data tpl)
  = map (fun i => row_product (map (fun c => cell_at data c i) tpl))
        (seq 0 (Pandas.nrows data)).
Proof.
  intros Hwf Hnd Hincl.
  pose proof (getitem_well_formed data tpl Hwf) as Hg.
  unfold Pandas.prod_axis1, Pandas.well_formed in *.
  rewrite (getitem_cols data tpl Hnd Hincl) in *.
  change (Pandas.nrows (Pandas.getitem data tpl)) with (Pandas.nrows data)
    in *.
  destruct tpl as [|c rest]; simpl.
  - apply repeat_map_seq.
  - simpl in Hg. inversion Hg as [|? ? Hc Hrest]; subst. simpl in Hc.
    rewrite (fold_zip_rows (Pandas.nrows data) Pandas.one _ Hrest)
      by now rewrite length_map.
    apply map_ext_in. intros i Hi. apply in_seq in Hi.
    rewrite nth_map_in by lia. rewrite !map_map. reflexivity.
Qed.

(** X17.  For a well-formed table with distinct labels and an expansion in
    which no two terms share a label, the column of a term holds, in each
    row, the product from left to right of the cells of that row in the
    columns the tuple names, in the arithmetic of the column type, a
    column named twice counting twice and a missing cell counting as
    1. *)
Theorem generated_cells_are_row_products
        (data : Pandas.DataFrame cell) (der : Z) (tpl : list string) :
  Pandas.well_formed data ->
  NoDup (Pandas.columns data) ->
  NoDup (map label (terms data der)) ->
  In tpl (terms data der) ->
  Pandas.column (build_polynomial_dataframe data der) (label tpl)
  = Some (map (fun i => row_product (map (fun c => cell_at data c i) tpl))
              (seq 0 (Pandas.nrows data))).
Proof.
  intros Hwf Hnd Hterms Hin.
  rewrite build_polynomial_dataframe_terms.
  rewrite (column_fold_add_term data (terms data der) Hterms data tpl Hin).
  f_equal. apply prod_axis1_rows; try assumption.
  apply (terms_shape data der tpl Hin).
Qed.

Lemma combinations_of_one (A : Type) (pool : list A) :
  Itertools.combinations_with_replacement 1 pool = map (fun x => [x]) pool.
Proof.
  induction pool as [|x rest IH]; simpl in *; [reflexivity|].
  now rewrite IH.
Qed.

Let fill (c : string * list cell) : string * list cell :=
  (fst c, map Pandas.nan_to_one (snd c)).

Lemma set_column_elsewhere (cs : list (string * list cell)) (name : string)
      (v : list cell) :
  ~ In name (map fst cs) ->
  map (fun c => if String.eqb (fst c) name then (fst c, v) else c) cs = cs.
Proof.
  induction cs as [|c cs IH]; intros H; simpl; [reflexivity|].
  destruct (String.eqb_spec (fst c) name) as [E|_].
  - exfalso. apply H. now left.
  - f_equal. apply IH. intros Hin. apply H. now right.
Qed.

Lemma add_term_single (data : Pandas.DataFrame cell)
      (pre suf : list (string * list cell)) (c : string * list cell) :
  NoDup (Pandas.columns data) ->
  Pandas.cols data = pre ++ c :: suf ->
  add_term data
           (Pandas.mkDataFrame (Pandas.nrows data) (map fill pre ++ c :: suf))
           [fst c]
  = Pandas.mkDataFrame (Pandas.nrows data)
                       (map fill (pre ++ [c]) ++ suf).
Proof.
  intros Hnd Hcols.
  assert (Hin : In (fst c, snd c) (Pandas.cols data)).
  { rewrite Hcols. apply in_or_app. right. left. now destruct c. }
  unfold Pandas.columns in Hnd. 
  unfold add_term, Pandas.prod_axis1, Pandas.getitem, Pandas.setitem.
  cbn [Pandas.cols Pandas.nrows flat_map String.concat].
  rewrite app_nil_r, (filter_label_unique _ _ _ Hnd Hin).
  cbn [fold_left snd]. f_equal.
  rewrite Hcols, map_app in Hnd. simpl in Hnd.
  pose proof (NoDup_remove_2 _ _ _ Hnd) as Hnot.
  unfold Pandas.set_column.
  replace (existsb _ _) with true.
  2:{ symmetry. apply existsb_exists. exists c. split.
      - apply in_or_app. right. now left.
      - apply String.eqb_refl. }
  rewrite !map_app. cbn [map]. rewrite String.eqb_refl.
  rewrite !set_column_elsewhere.
  - now rewrite <- app_assoc.
  - intros H. apply Hnot. apply in_or_app. now right.
  - intros H. apply Hnot. apply in_or_app. left.
    rewrite map_map in H. exact H.
Qed.

(** X18.  For a table with distinct labels, order 1 rewrites every column
    with its own values in which each missing cell (NaN) has become 1:
    it changes nothing else, and returns the table as it is when no cell
    is missing. *)
Theorem degree_one_fills_missing (data : Pandas.DataFrame cell) :
  NoDup (Pandas.columns data) ->
  build_polynomial_dataframe data 1 = fill_missing data
  /\ (no_missing data -> build_polynomial_dataframe data 1 = data).
Proof.
  intros Hnd.
  assert (E : build_polynomial_dataframe data 1 = fill_missing data).
  { rewrite build_polynomial_dataframe_terms.
    unfold terms. change (Py.range 1 (1 + 1)) with [1%Z]. cbn [flat_map].
    rewrite app_nil_r. change (Z.to_nat 1) with 1.
    rewrite combinations_of_one. unfold Pandas.columns. rewrite map_map.
    assert (H : forall suf pre,
               Pandas.cols data = pre ++ suf ->
               fold_left (add_term data) (map (fun c => [fst c]) suf)
                         (Pandas.mkDataFrame (Pandas.nrows data)
                                             (map fill pre ++ suf))
               = Pandas.mkDataFrame (Pandas.nrows data)
                                    (map fill (pre ++ suf))).
    { induction suf as [|c suf IH]; intros pre Hcols; simpl.
      - now rewrite !app_nil_r.
      - rewrite (add_term_single data pre suf c Hnd Hcols).
        rewrite (IH (pre ++ [c])) by now rewrite <- app_assoc.
        now rewrite <- app_assoc. }
    specialize (H (Pandas.cols data) [] eq_refl). simpl in H.
    destruct data as [n cs]. exact H. }
  split; [exact E|].
  intros Hno. rewrite E. clear E Hnd. unfold fill_missing, no_missing in *.
  destruct data as [n cs]. simpl in *. f_equal.
  induction Hno as [|c cs Hc _ IH]; simpl; [reflexivity|].
  rewrite (nan_to_one_present (snd c) Hc), IH. now destruct c.
Qed.

End PolynomialExpanderCells.

(** * Order of the rows within a fold *)

Lemma seq_ascending (len : nat) :
  forall start, StronglySorted lt (seq start len).
Proof.
  induction len as [|len IH]; intros start; simpl; constructor.
  - apply IH.
  - apply Forall_forall. intros i Hi. apply in_seq in Hi. lia.
Qed.

Lemma filter_ascending (f : nat -> bool) (l : list nat) :
  StronglySorted lt l -> StronglySorted lt (filter f l).
Proof.
  induction 1 as [|a l Hs IH Ha]; simpl; [constructor|].
  destruct (f a); [|assumption]. constructor; [assumption|].
  apply Forall_forall. intros i Hi. apply filter_In in Hi.
  rewrite Forall_forall in Ha. now apply Ha.
Qed.

Lemma folds_ascending (rng_shuffle : list nat -> list nat) (A B : Type)
      (kf : Sklearn.KFold) (X : list A) (y : list B) folds :
  Sklearn.split rng_shuffle kf X y = Ok folds ->
  Forall (fun f => StronglySorted lt (fst f) /\ StronglySorted lt (snd f))
         folds.
Proof.
  unfold Sklearn.split.
  destruct (negb _); [discriminate|].
  destruct (_ <? _)%Z; [discriminate|].
  intros [= <-]. apply Forall_map, Forall_forall. intros t _.
  unfold Sklearn.fold_of_test. simpl.
  split; apply filter_ascending, seq_ascending.
Qed.

Section CrossValidatorOrder.

Variables row target pred score M : Type.
Variable fit : M -> list row -> list target -> M.
Variable predict : M -> list row -> list pred.
Variable LinearRegression : M.
Variable mean_squared_error : list target -> list pred -> score.
Variable rng_shuffle : list nat -> list nat.

Let run := train_n_test fit predict LinearRegression mean_squared_error
                        rng_shuffle.

(** X19.  Whatever the shuffle, the rows of each fit and of each score are
    taken in ascending order of their index, without repetition: the
    shuffle decides which fold a row is in, not the order of the rows
    handed to the model and the metric. *)
Theorem rows_in_ascending_order
        (X : list row) (y : list target) (k : Z)
        (uf : option Z) model metric (tom concise : bool) kf folds :
  Sklearn.KFold_init k true = Ok kf ->
  Sklearn.split rng_shuffle kf X y = Ok folds ->
  let tr := st_trace (fst (run X (Pandas.Series y) (PyInt k) uf model metric tom concise)) in
  Forall (StronglySorted lt) (fitted_rows tr)
  /\ Forall (StronglySorted lt) (scored_rows tr).
Proof.
  intros Hk Hs tr. subst tr.
  destruct (run_accepted _ _ _ _ _ fit predict LinearRegression
              mean_squared_error rng_shuffle X y k uf model metric tom
              concise kf folds Hk Hs) as (tr & E & F & S).
  unfold run. rewrite E. simpl. rewrite F, S.
  pose proof (folds_ascending rng_shuffle _ _ kf X y folds Hs) as H.
  split; rewrite map_map; apply Forall_map;
    (eapply Forall_impl; [|exact H]); intros [train test] [Htr Hte];
    destruct tom; assumption.
Qed.

End CrossValidatorOrder.

(** * Number of terms *)

(** X20.  Over a table of [n >= 1] columns the inner loop goes through
    [(n + o - 1)! / (o! (n - 1)!)] tuples at order [o]: the number of
    multisets of [o] labels out of [n]. *)
Theorem number_of_terms_of_order (A : Type) (o : nat) :
  forall (pool : list A),
    pool <> [] ->
    List.length (Itertools.combinations_with_replacement o pool)
    * fact o * fact (List.length pool - 1)
    = fact (List.length pool + o - 1).
Proof.
  induction o as [|r IHr]; intros pool Hne.
  - change (Itertools.combinations_with_replacement 0 pool) with [@nil A].
    rewrite Nat.add_0_r. change (fact 0) with 1. cbn [List.length]. lia.
  - induction pool as [|x rest IHp]; [contradiction|].
    change (Itertools.combinations_with_replacement (S r) (x :: rest))
      with (map (cons x)
                (Itertools.combinations_with_replacement r (x :: rest))
            ++ Itertools.combinations_with_replacement (S r) rest).
    rewrite length_app, length_map.
    specialize (IHr (x :: rest) Hne).
    destruct rest as [|z rest'].
    + change (Itertools.combinations_with_replacement (S r) (@nil A))
        with (@nil (list A)).
      cbn [List.length] in *.
      replace (1 + S r - 1) with (S r) by lia.
      replace (1 + r - 1) with r in IHr by lia.
      replace (1 - 1) with 0 in * by lia.
      change (fact 0) with 1 in *.
      change (fact (S r)) with (S r * fact r). nia.
    + specialize (IHp ltac:(discriminate)).
      set (m := List.length (z :: rest')) in *.
      assert (Hm : m = S (List.length rest')) by reflexivity.
      change (List.length (x :: z :: rest')) with (S m) in *.
      replace (S m - 1) with m in * by lia.
      replace (S m + r - 1) with (m + r) in IHr by lia.
      replace (m + S r - 1) with (m + r) in IHp by lia.
      replace (S m + S r - 1) with (S (m + r)) by lia.
      change (fact (S (m + r))) with (S (m + r) * fact (m + r)).
      assert (Hf : fact m = m * fact (m - 1)).
      { rewrite Hm. simpl. rewrite Nat.sub_0_r. reflexivity. }
      change (fact (S r)) with (S r * fact r) in *.
      set (A1 := List.length
                   (Itertools.combinations_with_replacement
                      r (x :: z :: rest'))) in *.
      set (B1 := List.length
                   (Itertools.combinations_with_replacement
                      (S r) (z :: rest'))) in *.
      rewrite Hf at 1.
      nia.
Qed.

(** * The further properties on the sample data *)

Lemma notices_follow_frequency_witness :
  map study
      (notices (st_trace (fst (Sample.run Sample.X (Pandas.Series Sample.y) (PyInt 2)
                                          (Some 1%Z) None None false true))))
  = [1%Z; 2%Z].
Proof.
  exact (notices_follow_frequency
           Z Z Z Z Z Sample.fit Sample.predict 0%Z Sample.squared_error
           Sample.shuffle Sample.X Sample.y 2%Z (Some 1%Z) None None false
           true Sample.kfold Sample.folds eq_refl eq_refl).
Defined.

Lemma default_frequency_announces_first_fold_witness :
  map study
      (notices (st_trace (fst (Sample.run Sample.X (Pandas.Series Sample.y) (PyInt 2) None
                                          None None false true))))
  = [1%Z].
Proof.
  apply (default_frequency_announces_first_fold
           Z Z Z Z Z Sample.fit Sample.predict 0%Z Sample.squared_error
           Sample.shuffle Sample.X Sample.y 2%Z None None None false true).
  - now left.
  - lia.
  - simpl. lia.
  - reflexivity.
Defined.

Lemma notices_report_all_rows_witness :
  Forall (fun msg =>
            fst (reported_sizes msg) + snd (reported_sizes msg) = 5
            /\ (match msg with Concise _ _ _ _ => true | _ => false end)
               = false)
         (notices (st_trace (fst (Sample.run Sample.X (Pandas.Series Sample.y) (PyInt 2)
                                             (Some 1%Z) None None true
                                             false)))).
Proof.
  exact (notices_report_all_rows
           Z Z Z Z Z Sample.fit Sample.predict 0%Z Sample.squared_error
           Sample.shuffle Sample.X Sample.y 2%Z (Some 1%Z) None None true
           false Sample.kfold Sample.folds eq_refl eq_refl).
Defined.

Lemma fit_then_score_per_fold_witness :
  model_calls (st_trace (fst (Sample.run Sample.X (Pandas.Series Sample.y) (PyInt 2)
                                         (Some 1%Z) None None true true)))
  = [Fit [2; 3; 4]; Score [0; 1]; Fit [0; 1]; Score [2; 3; 4]].
Proof.
  exact (fit_then_score_per_fold
           Z Z Z Z Z Sample.fit Sample.predict 0%Z Sample.squared_error
           Sample.shuffle Sample.X Sample.y 2%Z (Some 1%Z) None None true
           true Sample.kfold Sample.folds eq_refl eq_refl).
Defined.

Lemma refitting_model_scores_folds_independently_witness :
  snd (Sample.run Sample.X (Pandas.Series Sample.y) (PyInt 2) None (Some 7%Z) None false
                  true)
  = Ok [5%Z; 221%Z].
Proof.
  exact (refitting_model_scores_folds_independently
           Z Z Z Z Z Sample.fit Sample.predict 0%Z Sample.squared_error
           Sample.shuffle Sample.X Sample.y 2%Z None (Some 7%Z) None false
           true Sample.kfold Sample.folds
           (fun m m' Xt yt => eq_refl) eq_refl eq_refl).
Defined.

Lemma more_folds_than_rows_rejected_witness :
  Sample.run Sample.X (Pandas.Series Sample.y) (PyInt 6) None None None false true
  = (mkState Sample.X (Pandas.Series Sample.y) 0%Z [],
     Raise (ValueError (NSplitsExceedsSamples 6 5))).
Proof.
  apply (more_folds_than_rows_rejected
           Z Z Z Z Z Sample.fit Sample.predict 0%Z Sample.squared_error
           Sample.shuffle Sample.X Sample.y 6%Z None None None false true).
  - lia.
  - reflexivity.
  - simpl. lia.
Defined.

Lemma misaligned_data_rejected_witness :
  Sample.run Sample.X (Pandas.Series [1%Z; 2%Z]) (PyInt 2) None None None
             false true
  = (mkState Sample.X (Pandas.Series [1%Z; 2%Z]) 0%Z [],
     Raise (ValueError (InconsistentLengths 5 2))).
Proof.
  apply (misaligned_data_rejected
           Z Z Z Z Z Sample.fit Sample.predict 0%Z Sample.squared_error
           Sample.shuffle Sample.X [1%Z; 2%Z] 2%Z None None None false true).
  - lia.
  - simpl. lia.
Defined.

Lemma folds_select_aligned_rows_witness :
  Forall (fun f =>
            List.length (take Sample.X (fst f)) = List.length (fst f)
            /\ List.length (take Sample.y (fst f)) = List.length (fst f)
            /\ List.length (take Sample.X (snd f)) = List.length (snd f)
            /\ List.length (take Sample.y (snd f)) = List.length (snd f))
         Sample.folds.
Proof.
  exact (folds_select_aligned_rows
           Z Z Sample.shuffle Sample.X Sample.y Sample.kfold Sample.folds
           eq_refl).
Defined.

Lemma each_row_in_one_test_set_witness :
  Permutation
    (List.concat (scored_rows
                    (st_trace (fst (Sample.run Sample.X (Pandas.Series Sample.y) (PyInt 2)
                                               None None None false true)))))
    (seq 0 5)
  /\ Permutation
       (List.concat (fitted_rows
                       (st_trace (fst (Sample.run Sample.X (Pandas.Series Sample.y) (PyInt 2)
                                                  None None None true
                                                  true)))))
       (seq 0 5).
Proof.
  apply (each_row_in_one_test_set
           Z Z Z Z Z Sample.fit Sample.predict 0%Z Sample.squared_error
           Sample.shuffle (fun l => Permutation_rev l)
           Sample.X Sample.y 2%Z None None None true).
  - lia.
  - simpl. lia.
  - reflexivity.
Defined.

Lemma folds_are_balanced_witness :
  map (@List.length nat)
      (scored_rows
         (st_trace (fst (Sample.run Sample.X (Pandas.Series Sample.y) (PyInt 2) None None
                                    None false true))))
  = [3; 2].
Proof.
  apply (folds_are_balanced
           Z Z Z Z Z Sample.fit Sample.predict 0%Z Sample.squared_error
           Sample.shuffle (fun l => Permutation_rev l)
           Sample.X Sample.y 2%Z None None None true).
  - lia.
  - simpl. lia.
  - reflexivity.
Defined.

Lemma rows_in_ascending_order_witness :
  Forall (StronglySorted lt)
         (fitted_rows
            (st_trace (fst (Sample.run Sample.X (Pandas.Series Sample.y) (PyInt 2) None None
                                       None false true)))).
Proof.
  apply (rows_in_ascending_order
           Z Z Z Z Z Sample.fit Sample.predict 0%Z Sample.squared_error
           Sample.shuffle Sample.X Sample.y 2%Z None None None false true
           Sample.kfold Sample.folds eq_refl eq_refl).
Defined.

Lemma sample_terms_labels_distinct :
  NoDup (map label (terms Sample.table 2)).
Proof.
  vm_compute.
  repeat (constructor; [simpl; intuition discriminate|]). constructor.
Qed.

Lemma generated_columns_hold_products_witness :
  Pandas.column (build_polynomial_dataframe Sample.table 2) "a_x_b"
  = Some [10; 21]%Z.
Proof.
  assert (Hin : In ["a"; "b"]%string (terms Sample.table 2))
    by (vm_compute; auto 6).
  rewrite (generated_columns_hold_products
             Sample.table 2 ["a"; "b"]%string sample_terms_labels_distinct
             Hin : _ "a_x_b"%string = _).
  reflexivity.
Defined.

Lemma no_columns_no_terms_witness :
  build_polynomial_dataframe Sample.empty_table 3 = Sample.empty_table.
Proof.
  apply (no_columns_no_terms Sample.empty_table 3). reflexivity.
Defined.

Lemma sample_table_well_formed : Pandas.well_formed Sample.table.
Proof. repeat constructor. Qed.

Lemma sample_table_labels_distinct : NoDup (Pandas.columns Sample.table).
Proof.
  vm_compute.
  repeat (constructor; [simpl; intuition discriminate|]). constructor.
Qed.

Lemma expansion_keeps_shape_witness :
  Pandas.nrows (build_polynomial_dataframe Sample.table 2) = 2
  /\ Pandas.well_formed (build_polynomial_dataframe Sample.table 2).
Proof.
  apply (expansion_keeps_shape Sample.table 2 sample_table_well_formed).
Defined.

Lemma generated_cells_are_row_products_witness :
  Pandas.column (build_polynomial_dataframe Sample.table 2) "a_x_b"
  = Some [10; 21]%Z.
Proof.
  assert (Hin : In ["a"; "b"]%string (terms Sample.table 2))
    by (vm_compute; auto 6).
  rewrite (generated_cells_are_row_products
             Sample.table 2 ["a"; "b"]%string
             sample_table_well_formed sample_table_labels_distinct
             sample_terms_labels_distinct Hin : _ "a_x_b"%string = _).
  reflexivity.
Defined.

Lemma degree_one_fills_missing_witness :
  build_polynomial_dataframe Sample.table 1 = Sample.table.
Proof.
  destruct (degree_one_fills_missing
              Sample.table sample_table_labels_distinct) as [_ H].
  apply H. repeat constructor.
Defined.

Lemma number_of_terms_of_order_witness :
  List.length (Itertools.combinations_with_replacement
                 2 (Pandas.columns Sample.table))
  * fact 2 * fact 1
  = fact 3.
Proof.
  apply (number_of_terms_of_order string 2 (Pandas.columns Sample.table)).
  discriminate.
Defined.

Lemma build_polynomial_dataframe_NoDup_witness :
  NoDup (Pandas.columns (build_polynomial_dataframe Sample.table 2)).
Proof.
  apply (build_polynomial_dataframe_NoDup
           Sample.table 2 sample_table_labels_distinct).
Defined.

